(** * se3cnn: the ModelNet10 dataset and its on-disk cache of voxel grids

  A shallow embedding of [experiments/datasets/modelnet/modelnet.py]:
  the class [CacheNPY] (a cache of [repeat] independently computed
  results per input file, kept as [.npy] files next to the input) and the
  indexing interface of the class [ModelNet10].

  Python code with side effects is written in a state-and-exception monad
  over a [world] holding the file system, the standard output, and the
  counters of the two external sources of non-determinism (the wrapped
  transform and numpy's random generator). *)

From stdpp Require Import gmap strings list pretty.
From Stdlib Require Import Ascii ZArith Lia.

Open Scope Z_scope.
Open Scope nat_scope.

(** ** Python exceptions and results *)

Inductive exn : Type :=
| OSError
| FileNotFoundError
| ValueError
| IndexError
| OtherError (name : string).

(** [isinstance(e, OSError)]: [FileNotFoundError] is a subclass of
  [OSError]. *)
Definition is_OSError (e : exn) : bool :=
match e with
| OSError | FileNotFoundError => true
| _ => false
end.

Inductive outcome (A : Type) : Type :=
| Return (a : A)
| Raise (e : exn).
Arguments Return {A} a.
Arguments Raise {A} e.

(** ** Strings and sequences as Python has them *)

Module Py.

Definition sep : ascii := "/"%char.
Definition extsep : ascii := "."%char.

(** [s[:n]] and [s[n:]] for [0 <= n]. *)
Fixpoint take (n : nat) (s : string) : string :=
  match n, s with
  | S n', String c s' => String c (take n' s')
  | _, _ => ""
  end.

Fixpoint drop (n : nat) (s : string) : string :=
  match n, s with
  | S n', String _ s' => drop n' s'
  | _, _ => s
  end.

(** [s.rfind(c)]: the index of the last occurrence, or -1. *)
Fixpoint rfind (c : ascii) (s : string) : Z :=
  match s with
  | "" => (-1)%Z
  | String a s' =>
      let k := rfind c s' in
      if (0 <=? k)%Z then (k + 1)%Z
      else if Ascii.eqb a c then 0%Z else (-1)%Z
  end.

(** [s == c * len(s)] *)
Fixpoint all_char (c : ascii) (s : string) : bool :=
  match s with
  | "" => true
  | String a s' => Ascii.eqb a c && all_char c s'
  end.

(** [s.rstrip(c)] *)
Fixpoint rstrip (c : ascii) (s : string) : string :=
  match s with
  | "" => ""
  | String a s' =>
      match rstrip c s' with
      | "" => if Ascii.eqb a c then "" else String a ""
      | r => String a r
      end
  end.

Definition startswith (c : ascii) (s : string) : bool :=
  match s with
  | String a _ => Ascii.eqb a c
  | "" => false
  end.

Fixpoint endswith (c : ascii) (s : string) : bool :=
  match s with
  | "" => false
  | String a "" => Ascii.eqb a c
  | String _ s' => endswith c s'
  end.

(** [posixpath.split] *)
Definition os_path_split (p : string) : string * string :=
  let i := Z.to_nat (rfind sep p + 1) in
  let head := take i p in
  let tail := drop i p in
  let head :=
    if negb (String.eqb head "") && negb (all_char sep head)
    then rstrip sep head else head in
  (head, tail).

(** [posixpath.splitext]: the extension starts at the last dot of the
    last component, unless that component has only dots before it. *)
Definition os_path_splitext (p : string) : string * string :=
  let sepIndex := rfind sep p in
  let dotIndex := rfind extsep p in
  if (sepIndex <? dotIndex)%Z then
    let name := take (Z.to_nat (dotIndex - (sepIndex + 1)))
                     (drop (Z.to_nat (sepIndex + 1)) p) in
    if all_char extsep name then (p, "")
    else (take (Z.to_nat dotIndex) p, drop (Z.to_nat dotIndex) p)
  else (p, "").

(** [posixpath.join] of two components *)
Definition os_path_join (a b : string) : string :=
  if startswith sep b then b
  else if String.eqb a "" || endswith sep a then a +:+ b
  else a +:+ String sep b.

(** [c in s] *)
Fixpoint contains (c : ascii) (s : string) : bool :=
  match s with
  | "" => false
  | String a s' => Ascii.eqb a c || contains c s'
  end.

(** [s.split(c)] *)
Fixpoint split (c : ascii) (s : string) : list string :=
  match s with
  | "" => [""]
  | String a s' =>
      if Ascii.eqb a c then "" :: split c s'
      else match split c s' with
           | w :: ws => String a w :: ws
           | [] => [String a ""]
           end
  end.

(** [l[i]] for a Python integer [i]: negative indices count from the
    end, anything outside [-len(l) <= i < len(l)] raises [IndexError]. *)
Definition getitem {A : Type} (l : list A) (i : Z) : outcome A :=
  let n := Z.of_nat (length l) in
  let k := if (i <? 0)%Z then (i + n)%Z else i in
  if (k <? 0)%Z || (n <=? k)%Z then Raise IndexError
  else match l !! Z.to_nat k with
       | Some x => Return x
       | None => Raise IndexError
       end.

(** [l.index(x)]: the first position of [x], [ValueError] if absent. *)
Fixpoint index (x : bool) (l : list bool) : outcome nat :=
  match l with
  | [] => Raise ValueError
  | y :: l' =>
      if Bool.eqb y x then Return 0
      else match index x l' with
           | Return k => Return (S k)
           | Raise e => Raise e
           end
  end.

(** [all(l)] *)
Definition all (l : list bool) : bool := forallb id l.

(** [range(n)] *)
Definition range (n : nat) : list nat := seq 0 n.

End Py.

(** ** The world the code runs in *)

Section World.

(** The value a transform produces and a [.npy] file holds; the cache
    never looks inside it. *)
Context {artifact : Type}.

(** What [np.load] finds at a path: an array written by [np.save], or
    bytes that do not deserialize. *)
Inductive file : Type :=
  | Npy (img : artifact)
  | Garbage.

Record world : Type := World {
  disk : gmap string file;      (* the file system, by path *)
  stdout : list string;         (* the lines printed so far *)
  ncalls : nat;                 (* invocations of the transform so far *)
  ndraws : nat                  (* draws from numpy's generator so far *)
}.

(** A computation changes the world and returns or raises; the world
    it leaves behind is kept in both cases. *)
Definition M (A : Type) : Type := world -> outcome A * world.

Definition ret {A} (a : A) : M A := fun w => (Return a, w).

Definition raise {A} (e : exn) : M A := fun w => (Raise e, w).

Definition bind {A B} (m : M A) (k : A -> M B) : M B :=
  fun w =>
    match m w with
    | (Return a, w') => k a w'
    | (Raise e, w') => (Raise e, w')
    end.

(** A pure Python expression that returns or raises. *)
Definition lift {A} (o : outcome A) : M A := fun w => (o, w).

(** [try: m  except <classes>: handler] *)
Definition try_except {A} (m : M A) (classes : exn -> bool)
    (handler : exn -> M A) : M A :=
  fun w =>
    match m w with
    | (Return a, w') => (Return a, w')
    | (Raise e, w') => if classes e then handler e w' else (Raise e, w')
    end.

(** [for i in l: s = body(i, s)] *)
Fixpoint for_in {S} (l : list nat) (body : nat -> S -> M S) (s : S) : M S :=
  match l with
  | [] => ret s
  | i :: l' => bind (body i s) (for_in l' body)
  end.

(** [[f(i) for i in l]] *)
Fixpoint comprehension {A} (f : nat -> M A) (l : list nat) : M (list A) :=
  match l with
  | [] => ret []
  | i :: l' => bind (f i) (fun x => bind (comprehension f l') (fun xs => ret (x :: xs)))
  end.

(** *** The library calls of the module *)

(** [print(line)] *)
Definition print (line : string) : M unit :=
  fun w => (Return tt, World (disk w) (stdout w ++ [line]) (ncalls w) (ndraws w)).

(** [os.path.exists(path)] *)
Definition os_path_exists (path : string) : M bool :=
  fun w => (Return (bool_decide (is_Some (disk w !! path))), w).

(** [np.load(path)]: a missing file raises [FileNotFoundError]; a file
    that does not deserialize raises [OSError], the failure the module's
    handlers are written for. *)
Definition np_load (path : string) : M artifact :=
  fun w =>
    match disk w !! path with
    | Some (Npy img) => (Return img, w)
    | Some Garbage => (Raise OSError, w)
    | None => (Raise FileNotFoundError, w)
    end.

(** [np.save(path, img)]: creates or replaces the file. *)
Definition np_save (path : string) (img : artifact) : M unit :=
  fun w => (Return tt, World (<[path := Npy img]> (disk w)) (stdout w) (ncalls w) (ndraws w)).

(** [np.random.randint(high)]: an integer of [[0, high)], [ValueError]
    when the interval is empty. The generator is the stream [random]. *)
Definition np_random_randint (random : nat -> nat) (high : nat) : M nat :=
  fun w =>
    if Nat.eqb high 0 then (Raise ValueError, w)
    else (Return (random (ndraws w) mod high),
          World (disk w) (stdout w) (ncalls w) (S (ndraws w))).

(** A call of a transform: an external callable that returns an array
    or raises, and need not give the same result twice. Its result at its
    [k]-th invocation is [f k path]. *)
Definition invoke (f : nat -> string -> outcome artifact) (path : string) : M artifact :=
  fun w => (f (ncalls w) path, World (disk w) (stdout w) (S (ncalls w)) (ndraws w)).

End World.

Arguments file : clear implicits.
Arguments world : clear implicits.
Arguments M : clear implicits.

Declare Scope py_scope.
Delimit Scope py_scope with py.
Notation "x <- m ;; k" := (bind m (fun x => k))
(at level 100, m at next level, right associativity) : py_scope.
Notation "m ;;; k" := (bind m (fun _ => k))
(at level 100, right associativity) : py_scope.

(** ** CacheNPY *)

Module CacheNPY.

Section Methods.

Context {artifact : Type}.

(** numpy's global random generator, as the stream of its draws. *)
Variable random : nat -> nat.

(** The attributes [__init__] stores. The transform is any callable; its
    result at its [k]-th invocation on [path] is [transform k path]. *)
Record t : Type := {
  transform : nat -> string -> outcome artifact;
  prefix : string;
  repeat : nat;
  pick_randomly : bool
}.

(** What [__call__] returns: one array when picking randomly, the list
    [output] otherwise. *)
Inductive returned : Type :=
  | Array (img : artifact)
  | List (output : list artifact).

Definition check_trans (self : t) (file_path : string) : M artifact artifact :=
  (print ("transform " +:+ file_path +:+ "...") ;;;
   try_except (invoke (transform self) file_path)
     (fun _ => true)
     (fun e =>
        print ("Exception during transform of " +:+ file_path) ;;;
        raise e))%py.

(** [npy_path.format(i)], for paths and prefixes without braces (where
    [format] only fills in the field [{0}]). *)
Definition npy_path (self : t) (file_path : string) (i : nat) : string :=
  let '(head, tail) := Py.os_path_split file_path in
  let '(root, _) := Py.os_path_splitext tail in
  Py.os_path_join head (prefix self +:+ root +:+ "_" +:+ pretty i +:+ ".npy").

(** The first [if] of [__call__] either returns from the method or falls
    through with the (possibly updated) list [exists]. *)
Inductive flow : Type :=
  | Returned (img : artifact)
  | Continue (exists_ : list bool).

Definition __call__ (self : t) (file_path : string) : M artifact returned :=
  (exists_ <- comprehension (fun i => os_path_exists (npy_path self file_path i))
                (Py.range (repeat self)) ;;
   fl <- (if pick_randomly self && Py.all exists_ then
            i <- np_random_randint random (repeat self) ;;
            try_except
              (img <- np_load (npy_path self file_path i) ;; ret (Returned img))
              is_OSError
              (fun _ => ret (Continue (<[i := false]> exists_)))
          else ret (Continue exists_)) ;;
   match fl with
   | Returned img => ret (Array img)
   | Continue exists_ =>
       if pick_randomly self then
         img <- check_trans self file_path ;;
         j <- lift (Py.index false exists_) ;;
         np_save (npy_path self file_path j) img ;;;
         ret (Array img)
       else
         output <- for_in (Py.range (repeat self))
                     (fun i output =>
                        img <- try_except
                                 (np_load (npy_path self file_path i))
                                 is_OSError
                                 (fun _ =>
                                    img <- check_trans self file_path ;;
                                    np_save (npy_path self file_path i) img ;;;
                                    ret img) ;;
                        ret (output ++ [img]))
                     [] ;;
         ret (List output)
   end)%py.

End Methods.

End CacheNPY.

(** ** ModelNet10 *)

Module ModelNet10.

Section Methods.

(** [artifact] is what the files on disk hold; [X] and [Y] are what the two
    optional callables return. *)
Context {artifact X Y : Type}.

(** The attributes [__init__] stores; [files] is the sorted result of the
    glob over [root/ModelNet10/*/train/*.obj] (or [test]). *)
Record t : Type := {
  root : string;
  transform : option (string -> M artifact X);
  target_transform : option (string -> M artifact Y);
  files : list string
}.

(** [if f is not None: x = f(x)]: the variable holds a string before and
    the callable's result after. *)
Definition rebind {B} (f : option (string -> M artifact B)) (x : string)
    : M artifact (string + B) :=
  match f with
  | Some f => (y <- f x ;; ret (inr y))%py
  | None => ret (inl x)
  end.

Definition __getitem__ (self : t) (index : Z) : M artifact ((string + X) * (string + Y)) :=
  (img <- lift (Py.getitem (files self) index) ;;
   target <- lift (Py.getitem (Py.split Py.sep img) (-3)) ;;
   img <- rebind (transform self) img ;;
   target <- rebind (target_transform self) target ;;
   ret (img, target))%py.

Definition __len__ (self : t) : Z := Z.of_nat (length (files self)).

End Methods.

End ModelNet10.

(** ** Vocabulary of the statements *)

(** [j] is the lowest index of [E] that holds [False]. *)
Definition first_missing (E : list bool) (j : nat) : Prop :=
  E !! j = Some false /\ forall k, k < j -> E !! k = Some true.

Section CacheVocabulary.

Context {artifact : Type}.
Variable random : nat -> nat.
Variable self : @CacheNPY.t artifact.

(** The list [exists] that [__call__] computes first. *)
Definition existence (file_path : string) (w : world artifact) : list bool :=
  map (fun i => bool_decide (is_Some (disk w !! CacheNPY.npy_path self file_path i)))
      (Py.range (CacheNPY.repeat self)).

(** The slot files of an item: the paths of the indices below [repeat]. *)
Definition slots (file_path : string) : gset string :=
  list_to_set (map (CacheNPY.npy_path self file_path) (Py.range (CacheNPY.repeat self))).

(** The two lines [check_trans] may print. *)
Definition transform_line (file_path : string) : string :=
  "transform " +:+ file_path +:+ "...".

Definition exception_line (file_path : string) : string :=
  "Exception during transform of " +:+ file_path.

(** A sequence of calls, each of some cache on some item; a call that
    raises leaves its effects behind, and the caller goes on. *)
Definition call_all (calls : list (@CacheNPY.t artifact * string)) (w : world artifact)
    : world artifact :=
  fold_left (fun w c => snd (CacheNPY.__call__ random (fst c) (snd c) w)) calls w.

(** The recomputation of randomized mode (the second [if] of [__call__])
    with the list [exists] as it stands there. *)
Definition recompute (file_path : string) (E : list bool) : M artifact CacheNPY.returned :=
  (img <- CacheNPY.check_trans self file_path ;;
   j <- lift (Py.index false E) ;;
   np_save (CacheNPY.npy_path self file_path j) img ;;;
   ret (CacheNPY.Array img))%py.

(** The body of the loop of exhaustive mode. *)
Definition load_or_compute (file_path : string) (i : nat) (output : list artifact)
    : M artifact (list artifact) :=
  (img <- try_except
            (np_load (CacheNPY.npy_path self file_path i))
            is_OSError
            (fun _ =>
               img <- CacheNPY.check_trans self file_path ;;
               np_save (CacheNPY.npy_path self file_path i) img ;;;
               ret img) ;;
   ret (output ++ [img]))%py.

(** What a call of randomized mode that recomputes comes to: the transform
    is invoked once; its array is saved to slot [j] and returned, or its
    exception is reported and raised again. *)
Definition compute_into (file_path : string) (j : nat) (w : world artifact)
    : outcome CacheNPY.returned * world artifact :=
  match CacheNPY.transform self (ncalls w) file_path with
  | Return img =>
      (Return (CacheNPY.Array img),
       World (<[CacheNPY.npy_path self file_path j := Npy img]> (disk w))
             (stdout w ++ [transform_line file_path])
             (S (ncalls w)) (ndraws w))
  | Raise e =>
      (Raise e,
       World (disk w)
             ((stdout w ++ [transform_line file_path]) ++ [exception_line file_path])
             (S (ncalls w)) (ndraws w))
  end.

(** The world after a draw from the random generator. *)
Definition drawn (w : world artifact) : world artifact :=
  World (disk w) (stdout w) (ncalls w) (S (ndraws w)).

(** One pass through the body of the loop of exhaustive mode, by cases: the
    slot loads; or it does not and the transform returns; or it does not
    and the transform raises. *)
Inductive step (file_path : string) (i : nat) (output : list artifact) (w : world artifact)
    : outcome (list artifact) -> world artifact -> Prop :=
  | step_hit img :
      disk w !! CacheNPY.npy_path self file_path i = Some (Npy img) ->
      step file_path i output w (Return (output ++ [img])) w
  | step_computed img :
      (forall a, disk w !! CacheNPY.npy_path self file_path i <> Some (Npy a)) ->
      CacheNPY.transform self (ncalls w) file_path = Return img ->
      step file_path i output w (Return (output ++ [img]))
        (World (<[CacheNPY.npy_path self file_path i := Npy img]> (disk w))
               (stdout w ++ [transform_line file_path])
               (S (ncalls w)) (ndraws w))
  | step_failed e :
      (forall a, disk w !! CacheNPY.npy_path self file_path i <> Some (Npy a)) ->
      CacheNPY.transform self (ncalls w) file_path = Raise e ->
      step file_path i output w (Raise e)
        (World (disk w)
               ((stdout w ++ [transform_line file_path]) ++ [exception_line file_path])
               (S (ncalls w)) (ndraws w)).

End CacheVocabulary.

(** ** A small instance, to run the definitions on *)

(** Arrays are stood for by numbers. The transform of [example_cache]
    returns [100 + k] at its [k]-th invocation; that of [failing_cache]
    always raises. *)
Definition example_item : string := "data/ModelNet10/chair/train/chair_0001.obj".

Definition example_cache (pick_randomly : bool) : @CacheNPY.t nat :=
  {| CacheNPY.transform := fun k _ => Return (100 + k);
     CacheNPY.prefix := "v64_";
     CacheNPY.repeat := 3;
     CacheNPY.pick_randomly := pick_randomly |}.

Definition failing_cache (pick_randomly : bool) : @CacheNPY.t nat :=
  {| CacheNPY.transform := fun _ _ => Raise (OtherError "CalledProcessError");
     CacheNPY.prefix := "v64_";
     CacheNPY.repeat := 3;
     CacheNPY.pick_randomly := pick_randomly |}.

Definition example_slot (i : nat) : string :=
  CacheNPY.npy_path (example_cache true) example_item i.

(** A generator whose every draw is 1. *)
Definition example_random : nat -> nat := fun _ => 1.

Definition empty_world : world nat := World ∅ [] 0 0.

(** Slot 0 only. *)
Definition partial_world : world nat :=
  World (<[example_slot 0 := Npy 10]> ∅) [] 0 0.

(** All three slots, loadable. *)
Definition full_world : world nat :=
  World (<[example_slot 2 := Npy 12]>
           (<[example_slot 1 := Npy 11]> (<[example_slot 0 := Npy 10]> ∅)))
        [] 0 0.


Definition example_dataset : @ModelNet10.t nat nat nat :=
  {| ModelNet10.root := "root";
     ModelNet10.transform := None;
     ModelNet10.target_transform := None;
     ModelNet10.files := ["root/chair/train/item1.ext"; "root/desk/train/item2.ext"] |}.

(** ** More of Python's strings and lists *)

Module PyStr.

(** The line feed and the space, which string literals cannot escape. *)
Definition LF : ascii := "010"%char.
Definition CR : ascii := "013"%char.
Definition nl : string := String LF "".

(** [c.isspace()] for a code point below 256. *)
Definition isspace (c : ascii) : bool :=
  let n := nat_of_ascii c in
  (Nat.leb 9 n && Nat.leb n 13) || (Nat.leb 28 n && Nat.leb n 32)
  || Nat.eqb n 133 || Nat.eqb n 160.

Definition isdigit (c : ascii) : bool :=
  let n := nat_of_ascii c in Nat.leb 48 n && Nat.leb n 57.

Definition digit_value (c : ascii) : Z := Z.of_nat (nat_of_ascii c - 48).

(** [s.split()]: the maximal runs of characters that are not whitespace. *)
Fixpoint split_ws (s : string) : list string :=
  match s with
  | "" => []
  | String c s' =>
      if isspace c then split_ws s'
      else match s' with
           | "" => [String c ""]
           | String c' _ =>
               if isspace c' then String c "" :: split_ws s'
               else match split_ws s' with
                    | w :: ws => String c w :: ws
                    | [] => [String c ""]
                    end
           end
  end.

(** [s.lstrip()], [s.rstrip()] and [s.strip()] *)
Fixpoint lstrip (s : string) : string :=
  match s with
  | String c s' => if isspace c then lstrip s' else s
  | "" => ""
  end.

Fixpoint rstrip (s : string) : string :=
  match s with
  | "" => ""
  | String c s' =>
      match rstrip s' with
      | "" => if isspace c then "" else String c ""
      | r => String c r
      end
  end.

Definition strip (s : string) : string := rstrip (lstrip s).

(** The digits of a decimal literal after a digit has been read, with the
    value read so far: digits, each optionally preceded by one
    underscore. *)
Fixpoint digits (acc : Z) (s : string) : option Z :=
  match s with
  | "" => Some acc
  | String c s' =>
      if isdigit c then digits (acc * 10 + digit_value c) s'
      else if Ascii.eqb c "_" then
        match s' with
        | String c' s'' =>
            if isdigit c' then digits (acc * 10 + digit_value c') s'' else None
        | "" => None
        end
      else None
  end.

Definition unsigned (s : string) : option Z :=
  match s with
  | String c s' => if isdigit c then digits (digit_value c) s' else None
  | "" => None
  end.

(** [int(s)] in base ten: surrounding whitespace, an optional sign, then
    digits; anything else raises [ValueError]. *)
Definition int (s : string) : outcome Z :=
  let parsed :=
    match strip s with
    | String c r =>
        if Ascii.eqb c "+" then unsigned r
        else if Ascii.eqb c "-" then option_map Z.opp (unsigned r)
        else unsigned (String c r)
    | "" => None
    end in
  match parsed with
  | Some z => Return z
  | None => Raise ValueError
  end.

(** [str(z)] *)
Definition str (z : Z) : string := pretty z.

(** [l[a:b]]: negative bounds count from the end, and bounds outside the
    list are clipped, never an error. *)
Definition clip (n i : Z) : nat :=
  Z.to_nat (Z.min n (if (i <? 0)%Z then Z.max 0 (i + n) else i)).

Definition slice {A : Type} (l : list A) (a b : Z) : list A :=
  let n := Z.of_nat (length l) in
  take (clip n b - clip n a) (drop (clip n a) l).

(** [sep.join(l)] *)
Fixpoint join (sep : string) (l : list string) : string :=
  match l with
  | [] => ""
  | [x] => x
  | x :: l' => x +:+ sep +:+ join sep l'
  end.

(** Whether [p] is a prefix of [s]. *)
Fixpoint startswith (p s : string) : bool :=
  match p, s with
  | "", _ => true
  | String a p', String b s' => Ascii.eqb a b && startswith p' s'
  | _, "" => false
  end.

(** [s.replace(old, new)] for a non-empty [old]: every occurrence of [old],
    found from the left without overlap. [skip] counts the characters of
    the occurrence just replaced that are still to be passed over. *)
Fixpoint replace_from (skip : nat) (old new s : string) : string :=
  match s with
  | "" => ""
  | String c s' =>
      match skip with
      | S k => replace_from k old new s'
      | 0 =>
          if startswith old s
          then new +:+ replace_from (String.length old - 1) old new s'
          else String c (replace_from 0 old new s')
      end
  end.

Definition replace (old new s : string) : string := replace_from 0 old new s.

(** What reading a file opened in text mode does to line ends: [\r\n] and
    a lone [\r] become [\n]. *)
Fixpoint universal_newlines (s : string) : string :=
  match s with
  | "" => ""
  | String c s' =>
      if Ascii.eqb c CR then
        match s' with
        | String c' s'' =>
            if Ascii.eqb c' LF then String LF (universal_newlines s'')
            else String LF (universal_newlines s')
        | "" => nl
        end
      else String c (universal_newlines s')
  end.

(** Running a fallible function over a list, stopping at the first
    exception. *)
Fixpoint traverse {A B : Type} (f : A -> outcome B) (l : list A) : outcome (list B) :=
  match l with
  | [] => Return []
  | x :: l' =>
      match f x with
      | Raise e => Raise e
      | Return y =>
          match traverse f l' with
          | Raise e => Raise e
          | Return ys => Return (y :: ys)
          end
      end
  end.

End PyStr.

(** ** The conversion of [_off2obj] *)

Module Off.

Import PyStr.

(** [o >>= k] on results. *)
Definition and_then {A B : Type} (o : outcome A) (k : A -> outcome B) : outcome B :=
  match o with
  | Return a => k a
  | Raise e => Raise e
  end.

(** The line [_off2obj] writes for a face: its indices, one more each. *)
Definition face_line (f : list string) : outcome string :=
  and_then (traverse (fun x => and_then (int x) (fun z => Return (str (z + 1)))) f)
    (fun idx => Return ("f " +:+ join " " idx +:+ nl)).

(** The body of the loop of [_off2obj], from the text read to the text
    written. *)
Definition convert (text : string) : outcome string :=
  let data := Py.split LF text in
  and_then (Py.getitem data 0) (fun first =>
  if negb (String.eqb first "OFF") then Raise (OtherError "AssertionError") else
  and_then (Py.getitem data 1) (fun counts =>
  and_then (traverse int (split_ws counts)) (fun numbers =>
  match numbers with
  | [n; m; _] =>
      let vertices := slice data 2 (2 + n) in
      let faces := map (fun x => drop 1 (split_ws x)) (slice data (2 + n) (2 + n + m)) in
      let result := "o object" +:+ nl in
      let result := fold_left (fun result v => result +:+ "v " +:+ v +:+ nl)
                              vertices result in
      fold_left (fun result f =>
                   and_then result (fun result =>
                   and_then (face_line f) (fun line => Return (result +:+ line))))
                faces (Return result)
  | _ => Raise ValueError
  end))).

End Off.

(** ** The files of the dataset and where they come from *)

Module Bootstrap.

(** The world of the methods that fetch and prepare the dataset: the
    regular files by path, with their content as a string of characters
    (the directories a file is written to are taken to exist), the lines
    printed, and the number of HTTP requests made. *)
Record site : Type := Site {
  tree : gmap string string;
  console : list string;
  nrequests : nat
}.

Definition Run (A : Type) : Type := site -> outcome A * site.

Definition ret {A} (a : A) : Run A := fun w => (Return a, w).

Definition raise {A} (e : exn) : Run A := fun w => (Raise e, w).

Definition lift {A} (o : outcome A) : Run A := fun w => (o, w).

Definition bind {A B} (m : Run A) (k : A -> Run B) : Run B :=
  fun w =>
    match m w with
    | (Return a, w') => k a w'
    | (Raise e, w') => (Raise e, w')
    end.

(** [for x in l: body(x)] *)
Fixpoint for_each {A} (l : list A) (body : A -> Run unit) : Run unit :=
  match l with
  | [] => ret tt
  | x :: l' => bind (body x) (fun _ => for_each l' body)
  end.

Definition print (line : string) : Run unit :=
  fun w => (Return tt, Site (tree w) (console w ++ [line]) (nrequests w)).

Definition os_path_exists (path : string) : Run bool :=
  fun w => (Return (bool_decide (is_Some (tree w !! path))), w).

(** [open(path, "rt").read()]: line ends are translated. *)
Definition read_text (path : string) : Run string :=
  fun w =>
    match tree w !! path with
    | Some content => (Return (PyStr.universal_newlines content), w)
    | None => (Raise FileNotFoundError, w)
    end.

(** [open(path, "wt").write(text)] *)
Definition write_text (path text : string) : Run unit :=
  fun w => (Return tt, Site (<[path := text]> (tree w)) (console w) (nrequests w)).

(** [open(path, "wb")]: the file is created, or emptied. *)
Definition open_wb (path : string) : Run unit :=
  fun w => (Return tt, Site (<[path := ""]> (tree w)) (console w) (nrequests w)).

(** [f.write(chunk); f.flush()] on the file opened at [path] *)
Definition write_chunk (path chunk : string) : Run unit :=
  fun w =>
    (Return tt,
     Site (<[path := default "" (tree w !! path) +:+ chunk]> (tree w))
          (console w) (nrequests w)).

(** [requests.get(url, stream=True)]: the request either raises or gives a
    response, whatever its status: the chunks [iter_content] will yield,
    and the exception, if any, that ends the stream early. The network is
    the function [http], asked for the [k]-th time. *)
Definition requests_get (http : nat -> string -> outcome (list string * option exn))
    (url : string) : Run (list string * option exn) :=
  fun w => (http (nrequests w) url, Site (tree w) (console w) (S (nrequests w))).

Section Methods.

Variable http : nat -> string -> outcome (list string * option exn).

(** [glob.glob(pattern)] on a tree of files, in the order of the directory
    listing. *)
Variable glob : string -> gmap string string -> list string.

Definition _download (root url : string) : Run string :=
  bind (lift (Py.getitem (Py.split Py.sep url) (-1))) (fun filename =>
  let file_path := Py.os_path_join root filename in
  bind (os_path_exists file_path) (fun found =>
  if found then ret file_path
  else
    bind (print ("Downloading " +:+ url)) (fun _ =>
    bind (requests_get http url) (fun r =>
    bind (open_wb file_path) (fun _ =>
    bind (for_each (fst r)
            (fun chunk =>
               if negb (String.eqb chunk "") then write_chunk file_path chunk
               else ret tt)) (fun _ =>
    match snd r with
    | Some e => raise e
    | None => ret file_path
    end)))))).

Definition _off2obj (root : string) : Run unit :=
  bind (print "Convert OFF into OBJ") (fun _ =>
  bind (fun w =>
          (Return (glob (Py.os_path_join
                           (Py.os_path_join
                              (Py.os_path_join (Py.os_path_join root "ModelNet10") "*")
                              "*")
                           "*.off")
                        (tree w)), w)) (fun files =>
  for_each files (fun file_name =>
    bind (read_text file_name) (fun text =>
    bind (lift (Off.convert text)) (fun result =>
    write_text (PyStr.replace ".off" ".obj" file_name) result))))).

End Methods.

End Bootstrap.

(** ** The kernels sampled on the sphere ([examples/plots/kernels.py]) *)

Module Kernels.

(** [range(a, b)] on integers *)
Definition range (a b : Z) : list Z :=
  map (fun k => (a + Z.of_nat k)%Z) (seq 0 (Z.to_nat (b - a))).

Section SampleShSphere.

(** An array. *)
Context {K : Type}.

(** The body of the loop of [_sample_sh_sphere], which is numpy and library
    code: the array [K_J] it appends for the grid size [n], the order [J]
    and the two orders, or the exception it raises. *)
Variable K_J : Z -> Z -> Z -> Z -> outcome K.

(** The list [sh_spheres] that [_sample_sh_sphere] packs into an array. *)
Definition _sample_sh_sphere (n order_in order_out : Z) : outcome (list K) :=
  let order_irreps := range (Z.abs (order_in - order_out)) (order_in + order_out + 1) in
  PyStr.traverse (fun J => K_J n J order_in order_out) order_irreps.

End SampleShSphere.

End Kernels.

(** [old in s] *)
Fixpoint occurs (old s : string) : bool :=
  PyStr.startswith old s
  || match s with
     | String _ s' => occurs old s'
     | "" => false
     end.

(** The file tree after the OBJ text of each mesh has been written beside
    its OFF file: [stem.obj] for [stem.off]. *)
Definition with_obj_files (obj : string -> string) (stems : list string)
    (t : gmap string string) : gmap string string :=
  fold_left (fun t stem => <[stem +:+ ".obj" := obj stem]> t) stems t.

(** The pattern [_off2obj] gives to [glob]. *)
Definition off_pattern (root : string) : string :=
  Py.os_path_join
    (Py.os_path_join (Py.os_path_join (Py.os_path_join root "ModelNet10") "*") "*")
    "*.off".

(** An OFF file as text: the header, the counts, the vertex lines, the face
    lines (each led by its number of indices), then whatever follows. *)
Definition off_face (f : list nat) : string :=
  PyStr.join " " (pretty (length f) :: map pretty f).

Definition off_counts (n m edges : nat) : string :=
  pretty n +:+ " " +:+ pretty m +:+ " " +:+ pretty edges.

Definition off_text (vertices : list string) (faces : list (list nat))
    (edges : nat) (trailer : list string) : string :=
  PyStr.join PyStr.nl
    ("OFF" :: off_counts (length vertices) (length faces) edges
       :: vertices ++ map off_face faces ++ trailer).

(** The OBJ text for the same mesh: the vertex lines as they are, the
    indices of the faces counted from one. *)
Definition obj_text (vertices : list string) (faces : list (list nat)) : string :=
  "o object" +:+ PyStr.nl
  +:+ foldr (fun v rest => "v " +:+ v +:+ PyStr.nl +:+ rest) ""  vertices
  +:+ foldr (fun f rest =>
               "f " +:+ PyStr.join " " (map (fun i => pretty (S i)) f)
                    +:+ PyStr.nl +:+ rest) "" faces.

(** No character of [s] satisfies [P]. *)
Fixpoint none_of (P : ascii -> bool) (s : string) : bool :=
  match s with
  | "" => true
  | String c s' => negb (P c) && none_of P s'
  end.

(** A character that is not a digit. *)
Definition nondigit (c : ascii) : bool := negb (PyStr.isdigit c).

(** ** Further vocabulary *)

(** [np.load(path)] would return: the path holds an array. *)
Definition loadable {artifact : Type} (w : world artifact) (path : string) : bool :=
  match disk w !! path with
  | Some (Npy _) => true
  | _ => false
  end.

(** The indices below [repeat] whose slot does not load. *)
Definition unloadable_slots {artifact : Type} (self : @CacheNPY.t artifact)
    (file_path : string) (w : world artifact) : list nat :=
  List.filter (fun i => negb (loadable w (CacheNPY.npy_path self file_path i)))
              (Py.range (CacheNPY.repeat self)).

(** ** Facts about the Python primitives *)

Lemma index_first_missing (E : list bool) (j : nat) :
  first_missing E j -> Py.index false E = Return j.
Proof.
  revert j. induction E as [|b E IH]; intros j [Hj Hlow].
  - rewrite lookup_nil in Hj. discriminate.
  - destruct j as [|j]; simpl in *.
    + injection Hj as ->. reflexivity.
    + pose proof (Hlow 0 ltac:(lia)) as H0. simpl in H0. injection H0 as ->.
      simpl. rewrite (IH j); [reflexivity|].
      split; [exact Hj|]. intros k Hk. apply (Hlow (S k)). lia.
Qed.

Lemma index_false_inv (E : list bool) (j : nat) :
  Py.index false E = Return j -> first_missing E j.
Proof.
  revert j. induction E as [|b E IH]; intros j H; simpl in H; [discriminate|].
  destruct b; simpl in H.
  - destruct (Py.index false E) as [k|e] eqn:Hk; [|discriminate].
    injection H as <-. destruct (IH k eq_refl) as [H1 H2].
    split; [exact H1|]. intros [|n] Hn; simpl; [reflexivity|]. apply H2. lia.
  - injection H as <-. split; [reflexivity|]. intros k Hk. lia.
Qed.

Lemma all_false_first_missing (E : list bool) :
  Py.all E = false -> exists j, first_missing E j.
Proof.
  induction E as [|b E IH]; simpl; [discriminate|].
  destruct b; simpl.
  - intros H. destruct (IH H) as [j [H1 H2]]. exists (S j).
    split; [exact H1|]. intros [|k] Hk; simpl; [reflexivity|]. apply H2. lia.
  - intros _. exists 0. split; [reflexivity|]. intros k Hk. lia.
Qed.

Lemma all_true_lookup (E : list bool) (k : nat) :
  Py.all E = true -> k < length E -> E !! k = Some true.
Proof.
  revert k. induction E as [|b E IH]; intros k H Hk; simpl in *; [lia|].
  apply andb_prop in H as [Hb H]. destruct b; [|discriminate].
  destruct k as [|k]; simpl; [reflexivity|]. apply IH; [exact H|lia].
Qed.

Lemma first_missing_marked (E : list bool) (i : nat) :
  Py.all E = true -> i < length E -> first_missing (<[i := false]> E) i.
Proof.
  intros Hall Hi. split.
  - apply list_lookup_insert_eq. exact Hi.
  - intros k Hk. rewrite list_lookup_insert_ne by lia.
    apply all_true_lookup; [exact Hall|lia].
Qed.

Lemma first_missing_unique (E : list bool) (i j : nat) :
  first_missing E i -> first_missing E j -> i = j.
Proof.
  intros [Hi Hli] [Hj Hlj].
  destruct (Nat.lt_trichotomy i j) as [H|[H|H]]; [|exact H|].
  - specialize (Hlj i H). congruence.
  - specialize (Hli j H). congruence.
Qed.

(** ** The slot paths of an item are pairwise distinct *)

Lemma append_cons (c : ascii) (s t : string) :
  String c s +:+ t = String c (s +:+ t).
Proof. reflexivity. Qed.

Lemma append_assoc (s1 s2 s3 : string) :
  (s1 +:+ s2) +:+ s3 = s1 +:+ (s2 +:+ s3).
Proof.
  induction s1 as [|c s1 IH]; [reflexivity|].
  rewrite !append_cons. now rewrite IH.
Qed.

Lemma length_append (s1 s2 : string) :
  String.length (s1 +:+ s2) = String.length s1 + String.length s2.
Proof.
  induction s1 as [|c s1 IH]; [reflexivity|].
  rewrite append_cons. cbn [String.length]. now rewrite IH.
Qed.

Lemma append_inj_l (s1 s2 t : string) :
  s1 +:+ t = s2 +:+ t -> s1 = s2.
Proof.
  revert s2. induction s1 as [|c s1 IH]; intros [|d s2] H.
  - reflexivity.
  - apply (f_equal String.length) in H. rewrite !length_append in H.
    cbn [String.length] in H. lia.
  - apply (f_equal String.length) in H. rewrite !length_append in H.
    cbn [String.length] in H. lia.
  - rewrite !append_cons in H. injection H as -> H. f_equal. apply IH, H.
Qed.

Lemma startswith_append (c : ascii) (s t : string) :
  s <> "" -> Py.startswith c (s +:+ t) = Py.startswith c s.
Proof. destruct s; [congruence|reflexivity]. Qed.

Section SlotPaths.

Context {artifact : Type}.
Variable self : @CacheNPY.t artifact.
Variable file_path : string.

Lemma npy_path_stem :
  exists stem, forall i,
    CacheNPY.npy_path self file_path i = stem +:+ pretty i +:+ ".npy".
Proof.
  unfold CacheNPY.npy_path.
  destruct (Py.os_path_split file_path) as [head tail].
  destruct (Py.os_path_splitext tail) as [root ext].
  set (key := CacheNPY.prefix self +:+ root +:+ "_").
  assert (Hkey : key <> "").
  { intros H. apply (f_equal String.length) in H. unfold key in H.
    rewrite !length_append in H. cbn [String.length] in H. lia. }
  assert (Hb : forall i : nat, CacheNPY.prefix self +:+ root +:+ "_" +:+ pretty i +:+ ".npy"
                         = key +:+ pretty i +:+ ".npy").
  { intros i. unfold key. now rewrite !append_assoc. }
  unfold Py.os_path_join.
  destruct (Py.startswith Py.sep key) eqn:Hs.
  - exists key. intros i. rewrite Hb, startswith_append, Hs by exact Hkey. reflexivity.
  - destruct (String.eqb head "" || Py.endswith Py.sep head).
    + exists (head +:+ key). intros i.
      rewrite Hb, startswith_append, Hs by exact Hkey. now rewrite append_assoc.
    + exists (head +:+ String Py.sep key). intros i.
      rewrite Hb, startswith_append, Hs by exact Hkey.
      rewrite append_assoc. reflexivity.
Qed.

Lemma npy_path_inj (i j : nat) :
  CacheNPY.npy_path self file_path i = CacheNPY.npy_path self file_path j -> i = j.
Proof.
  destruct npy_path_stem as [stem Hstem]. rewrite !Hstem. intros H.
  apply String.app_inj in H. apply append_inj_l in H.
  now apply pretty_nat_inj in H.
Qed.

End SlotPaths.

(** ** How [__call__] runs *)

Section CacheFacts.

Context {artifact : Type}.
Variable random : nat -> nat.
Variable self : @CacheNPY.t artifact.
Variable file_path : string.

Local Abbreviation path := (CacheNPY.npy_path self file_path).
Local Abbreviation call := (CacheNPY.__call__ random self file_path).
Local Abbreviation tline := (transform_line file_path).
Local Abbreviation eline := (exception_line file_path).

Lemma comprehension_exists (l : list nat) (w : world artifact) :
  comprehension (fun i => os_path_exists (path i)) l w
  = (Return (map (fun i => bool_decide (is_Some (disk w !! path i))) l), w).
Proof.
  induction l as [|i l IH]; [reflexivity|].
  cbn [comprehension map]. unfold bind at 1. cbn [os_path_exists].
  unfold bind at 1. rewrite IH. reflexivity.
Qed.

Lemma check_trans_eq (w : world artifact) :
  CacheNPY.check_trans self file_path w =
  match CacheNPY.transform self (ncalls w) file_path with
  | Return img =>
      (Return img,
       World (disk w) (stdout w ++ [tline]) (S (ncalls w)) (ndraws w))
  | Raise e =>
      (Raise e,
       World (disk w) ((stdout w ++ [tline]) ++ [eline]) (S (ncalls w)) (ndraws w))
  end.
Proof.
  unfold CacheNPY.check_trans, bind, try_except, print, invoke, raise. cbn.
  destruct (CacheNPY.transform self (ncalls w) file_path); reflexivity.
Qed.

Lemma recompute_eq (E : list bool) (w : world artifact) :
  recompute self file_path E w =
  match CacheNPY.transform self (ncalls w) file_path with
  | Return img =>
      match Py.index false E with
      | Return j =>
          (Return (CacheNPY.Array img),
           World (<[path j := Npy img]> (disk w)) (stdout w ++ [tline])
                 (S (ncalls w)) (ndraws w))
      | Raise e =>
          (Raise e, World (disk w) (stdout w ++ [tline]) (S (ncalls w)) (ndraws w))
      end
  | Raise e =>
      (Raise e,
       World (disk w) ((stdout w ++ [tline]) ++ [eline]) (S (ncalls w)) (ndraws w))
  end.
Proof.
  unfold recompute. unfold bind at 1. rewrite check_trans_eq.
  destruct (CacheNPY.transform self (ncalls w) file_path); [|reflexivity].
  unfold bind, lift. destruct (Py.index false E); reflexivity.
Qed.

Lemma load_or_compute_eq (i : nat) (output : list artifact) (w : world artifact) :
  load_or_compute self file_path i output w =
  match disk w !! path i with
  | Some (Npy img) => (Return (output ++ [img]), w)
  | _ =>
      match CacheNPY.transform self (ncalls w) file_path with
      | Return img =>
          (Return (output ++ [img]),
           World (<[path i := Npy img]> (disk w)) (stdout w ++ [tline])
                 (S (ncalls w)) (ndraws w))
      | Raise e =>
          (Raise e,
           World (disk w) ((stdout w ++ [tline]) ++ [eline]) (S (ncalls w)) (ndraws w))
      end
  end.
Proof.
  unfold load_or_compute, bind at 1, try_except, np_load.
  destruct (disk w !! path i) as [[img|]|]; cbn [is_OSError]; try reflexivity.
  all: unfold bind at 1; rewrite check_trans_eq;
    destruct (CacheNPY.transform self (ncalls w) file_path); reflexivity.
Qed.

(** Randomized mode, step by step. *)
Lemma call_randomized_eq (w : world artifact) :
  CacheNPY.pick_randomly self = true ->
  call w =
  if Py.all (existence self file_path w) then
    if Nat.eqb (CacheNPY.repeat self) 0 then (Raise ValueError, w)
    else
      let i := random (ndraws w) mod CacheNPY.repeat self in
      let w1 := World (disk w) (stdout w) (ncalls w) (S (ndraws w)) in
      match disk w !! path i with
      | Some (Npy img) => (Return (CacheNPY.Array img), w1)
      | _ => recompute self file_path (<[i := false]> (existence self file_path w)) w1
      end
  else recompute self file_path (existence self file_path w) w.
Proof.
  intros Hpick. unfold CacheNPY.__call__.
  unfold bind at 1. rewrite comprehension_exists. fold (existence self file_path w).
  rewrite Hpick. cbn [andb].
  destruct (Py.all (existence self file_path w)); [|reflexivity].
  unfold bind at 1. unfold bind at 1. unfold np_random_randint.
  destruct (Nat.eqb (CacheNPY.repeat self) 0); [reflexivity|].
  cbn zeta. unfold try_except, bind at 1, np_load. cbn [disk].
  destruct (disk w !! path (random (ndraws w) mod CacheNPY.repeat self)) as [[img|]|];
    reflexivity.
Qed.

(** Exhaustive mode is the loop over the slot indices. *)
Lemma call_exhaustive_eq (w : world artifact) :
  CacheNPY.pick_randomly self = false ->
  call w =
  match for_in (Py.range (CacheNPY.repeat self)) (load_or_compute self file_path) [] w with
  | (Return output, w') => (Return (CacheNPY.List output), w')
  | (Raise e, w') => (Raise e, w')
  end.
Proof.
  intros Hpick. unfold CacheNPY.__call__.
  unfold bind at 1. rewrite comprehension_exists.
  rewrite Hpick. cbn [andb]. unfold bind at 1. unfold ret at 1.
  unfold bind at 1. fold (load_or_compute self file_path).
  destruct (for_in _ _ _ w) as [[output|e] w']; reflexivity.
Qed.

End CacheFacts.

(** ** The loop of exhaustive mode *)

Section ExhaustiveLoop.

Context {artifact : Type}.
Variable self : @CacheNPY.t artifact.
Variable file_path : string.

Local Abbreviation path := (CacheNPY.npy_path self file_path).
Local Abbreviation tline := (transform_line file_path).
Local Abbreviation eline := (exception_line file_path).
Local Abbreviation loop l := (for_in l (load_or_compute self file_path)).
Local Abbreviation trans k := (CacheNPY.transform self k file_path).
Local Abbreviation step := (step self file_path).

Lemma loop_cons (i : nat) (l : list nat) (output : list artifact) (w : world artifact) :
  loop (i :: l) output w =
  match load_or_compute self file_path i output w with
  | (Return output', w1) => loop l output' w1
  | (Raise e, w1) => (Raise e, w1)
  end.
Proof. reflexivity. Qed.

Lemma load_or_compute_step (i : nat) (output : list artifact) (w : world artifact) :
  step i output w (fst (load_or_compute self file_path i output w))
                  (snd (load_or_compute self file_path i output w)).
Proof.
  rewrite load_or_compute_eq.
  destruct (disk w !! path i) as [[img|]|] eqn:Hd.
  - apply step_hit. exact Hd.
  - destruct (trans (ncalls w)) as [img|e] eqn:Ht; cbn [fst snd].
    + apply step_computed; [intros a; rewrite Hd; discriminate|exact Ht].
    + apply step_failed; [intros a; rewrite Hd; discriminate|exact Ht].
  - destruct (trans (ncalls w)) as [img|e] eqn:Ht; cbn [fst snd].
    + apply step_computed; [intros a; rewrite Hd; discriminate|exact Ht].
    + apply step_failed; [intros a; rewrite Hd; discriminate|exact Ht].
Qed.

(** Splitting a run of the loop at its first index. *)
Lemma loop_cons_inv (i : nat) (l : list nat) (output : list artifact)
    (w w' : world artifact) (r : outcome (list artifact)) :
  loop (i :: l) output w = (r, w') ->
  (exists output1 w1,
      step i output w (Return output1) w1 /\ loop l output1 w1 = (r, w'))
  \/ (exists e, r = Raise e /\ step i output w (Raise e) w').
Proof.
  rewrite loop_cons. pose proof (load_or_compute_step i output w) as Hs.
  destruct (load_or_compute self file_path i output w) as [[o1|e] w1]; cbn [fst snd] in Hs.
  - intros H. left. exists o1, w1. split; [exact Hs|exact H].
  - intros H. injection H as <- <-. right. exists e. split; [reflexivity|exact Hs].
Qed.

Lemma loop_counters (l : list nat) (output : list artifact)
    (w w' : world artifact) (r : outcome (list artifact)) :
  loop l output w = (r, w') ->
  ncalls w <= ncalls w' /\ ncalls w' <= ncalls w + length l /\ ndraws w' = ndraws w.
Proof.
  revert output w. induction l as [|i l IH]; intros output w H.
  - injection H as <- <-. cbn. lia.
  - apply loop_cons_inv in H as [(o1 & w1 & Hs & H)|(e & -> & Hs)].
    + apply IH in H. inversion Hs; subst; cbn in *; lia.
    + inversion Hs; subst; cbn; lia.
Qed.

(** Only the paths of the indices visited are written. *)
Lemma loop_frame (l : list nat) (output : list artifact)
    (w w' : world artifact) (r : outcome (list artifact)) (p : string) :
  loop l output w = (r, w') ->
  (forall i, i ∈ l -> p <> path i) ->
  disk w' !! p = disk w !! p.
Proof.
  revert output w. induction l as [|i l IH]; intros output w H Hp.
  - injection H as <- <-. reflexivity.
  - assert (Hi : p <> path i) by (apply Hp; left).
    assert (Hl : forall j, j ∈ l -> p <> path j) by (intros j Hj; apply Hp; now right).
    apply loop_cons_inv in H as [(o1 & w1 & Hs & H)|(e & -> & Hs)].
    + rewrite (IH _ _ H Hl). inversion Hs; subst; cbn [disk]; [reflexivity|].
      apply lookup_insert_ne. congruence.
    + inversion Hs; subst. reflexivity.
Qed.

(** An array on disk is never replaced. *)
Lemma loop_keeps_valid (l : list nat) (output : list artifact)
    (w w' : world artifact) (r : outcome (list artifact)) (p : string) (a : artifact) :
  loop l output w = (r, w') ->
  disk w !! p = Some (Npy a) -> disk w' !! p = Some (Npy a).
Proof.
  revert output w. induction l as [|i l IH]; intros output w H Hp.
  - injection H as <- <-. exact Hp.
  - apply loop_cons_inv in H as [(o1 & w1 & Hs & H)|(e & -> & Hs)].
    + apply (IH _ _ H).
      inversion Hs as [img Hd|img Hd Ht|]; subst; cbn [disk]; [exact Hp|].
      rewrite lookup_insert_ne; [exact Hp|]. intros <-. eapply Hd. exact Hp.
    + inversion Hs; subst. exact Hp.
Qed.


Lemma loop_failure_propagates (l : list nat) (output : list artifact)
    (w w' : world artifact) (r : outcome (list artifact)) (k : nat) (e : exn) :
  loop l output w = (r, w') ->
  ncalls w <= k < ncalls w' -> trans k = Raise e ->
  r = Raise e /\ last (stdout w') = Some eline.
Proof.
  revert output w. induction l as [|i l IH]; intros output w H Hk Hfail.
  - injection H as <- <-. lia.
  - apply loop_cons_inv in H as [(o1 & w1 & Hs & H)|(e' & -> & Hs)].
    + inversion Hs as [img Hd|img Hd Ht|]; subst.
      * apply (IH _ _ H Hk Hfail).
      * cbn in *. destruct (decide (k = ncalls w)) as [->|Hne]; [congruence|].
        apply (IH _ _ H); [cbn; lia|exact Hfail].
    + inversion Hs as [| |e'' Hd Ht]; subst. cbn in Hk.
      assert (k = ncalls w) as -> by lia.
      split; [congruence|]. apply last_snoc.
Qed.

(** When the loop returns, it has appended one array per index visited, in
    the order of the visit; each is the content of its slot afterwards, and
    was either there before or computed during the loop. *)
Lemma loop_return (l : list nat) (output output' : list artifact)
    (w w' : world artifact) :
  NoDup l ->
  loop l output w = (Return output', w') ->
  exists imgs,
    output' = output ++ imgs /\ length imgs = length l /\
    forall n i, l !! n = Some i ->
      exists img,
        imgs !! n = Some img /\ disk w' !! path i = Some (Npy img) /\
        (disk w !! path i = Some (Npy img)
         \/ ((forall a, disk w !! path i <> Some (Npy a)) /\
             exists k, ncalls w <= k < ncalls w' /\ trans k = Return img)).
Proof.
  revert output w. induction l as [|i l IH]; intros output w Hnd H.
  - injection H as <- <-. exists []. rewrite app_nil_r.
    split; [reflexivity|]. split; [reflexivity|]. intros n i Hn.
    rewrite lookup_nil in Hn. discriminate.
  - apply NoDup_cons in Hnd as [Hi Hnd].
    apply loop_cons_inv in H as [(o1 & w1 & Hs & H)|(e' & He & _)]; [|discriminate].
    pose proof (loop_counters _ _ _ _ _ H) as (Hc1 & _ & _).
    destruct (IH _ _ Hnd H) as (imgs & -> & Hlen & Hall).
    assert (Hother : forall j, j ∈ l -> disk w1 !! path j = disk w !! path j).
    { intros j Hj. inversion Hs as [img Hd|img Hd Ht|]; subst; [reflexivity|].
      cbn [disk]. apply lookup_insert_ne. intros Heq.
      apply npy_path_inj in Heq. subst j. contradiction. }
    assert (Hrest : forall n j, l !! n = Some j ->
      exists img, imgs !! n = Some img /\ disk w' !! path j = Some (Npy img) /\
        (disk w !! path j = Some (Npy img)
         \/ ((forall a, disk w !! path j <> Some (Npy a)) /\
             exists k, ncalls w <= k < ncalls w' /\ trans k = Return img))).
    { intros n j Hn. destruct (Hall n j Hn) as (img & Himg & Hd' & Horigin).
      exists img. split; [exact Himg|]. split; [exact Hd'|].
      assert (Hj : j ∈ l) by (apply list_elem_of_lookup; eauto).
      rewrite (Hother j Hj) in Horigin.
      destruct Horigin as [Hold|[Hnone (k & Hk & Ht)]]; [left; exact Hold|].
      right. split; [exact Hnone|]. exists k. split; [|exact Ht].
      inversion Hs; subst; cbn in *; lia. }
    inversion Hs as [img Hd|img Hd Ht|]; subst.
    + exists (img :: imgs). split; [now rewrite <- app_assoc|].
      split; [cbn; now rewrite Hlen|].
      intros [|n] j Hn; [|apply (Hrest n j Hn)].
      injection Hn as <-. exists img. split; [reflexivity|].
      split; [apply (loop_keeps_valid _ _ _ _ _ _ _ H Hd)|left; exact Hd].
    + exists (img :: imgs). split; [now rewrite <- app_assoc|].
      split; [cbn; now rewrite Hlen|].
      intros [|n] j Hn; [|apply (Hrest n j Hn)].
      injection Hn as <-. exists img. split; [reflexivity|].
      split.
      * apply (loop_keeps_valid _ _ _ _ _ _ _ H). cbn [disk].
        apply lookup_insert_eq.
      * right. split; [exact Hd|]. exists (ncalls w). cbn in Hc1.
        split; [lia|exact Ht].
Qed.

(** With every slot on disk and loadable, the loop only reads. *)
Lemma loop_all_valid (l : list nat) (output imgs : list artifact) (w : world artifact) :
  length imgs = length l ->
  (forall n i, l !! n = Some i ->
     exists img, imgs !! n = Some img /\ disk w !! path i = Some (Npy img)) ->
  loop l output w = (Return (output ++ imgs), w).
Proof.
  revert output imgs. induction l as [|i l IH]; intros output imgs Hlen Hall.
  - destruct imgs; [|discriminate]. now rewrite app_nil_r.
  - destruct imgs as [|img imgs]; [discriminate|].
    destruct (Hall 0 i eq_refl) as (img' & Himg & Hd). injection Himg as <-.
    rewrite loop_cons, load_or_compute_eq, Hd.
    rewrite IH with (imgs := imgs).
    + now rewrite <- app_assoc.
    + cbn in Hlen. lia.
    + intros n j Hn. apply (Hall (S n) j Hn).
Qed.

Lemma loop_cons_miss (i : nat) (l : list nat) (output : list artifact)
    (w : world artifact) (img : artifact) :
  disk w !! path i = None ->
  trans (ncalls w) = Return img ->
  loop (i :: l) output w =
  loop l (output ++ [img])
    (World (<[path i := Npy img]> (disk w)) (stdout w ++ [tline])
           (S (ncalls w)) (ndraws w)).
Proof. intros Hd Ht. now rewrite loop_cons, load_or_compute_eq, Hd, Ht. Qed.

End ExhaustiveLoop.

(** ** Randomized mode, by cases *)

Section Randomized.

Context {artifact : Type}.
Variable random : nat -> nat.
Variable self : @CacheNPY.t artifact.
Variable file_path : string.

Local Abbreviation path := (CacheNPY.npy_path self file_path).
Local Abbreviation call := (CacheNPY.__call__ random self file_path).
Local Abbreviation E w := (existence self file_path w).

Lemma length_existence (w : world artifact) :
  length (E w) = CacheNPY.repeat self.
Proof. unfold existence, Py.range. now rewrite length_map, length_seq. Qed.

Lemma lookup_existence (w : world artifact) (i : nat) :
  i < CacheNPY.repeat self ->
  E w !! i = Some (bool_decide (is_Some (disk w !! path i))).
Proof.
  intros Hi. unfold existence, Py.range.
  rewrite list_lookup_fmap, lookup_seq_lt by exact Hi. reflexivity.
Qed.

Lemma existence_true (w : world artifact) (i : nat) :
  i < CacheNPY.repeat self ->
  E w !! i = Some true <-> is_Some (disk w !! path i).
Proof.
  intros Hi. rewrite lookup_existence by exact Hi. split.
  - intros H. injection H as H. now apply bool_decide_eq_true in H.
  - intros H. f_equal. now apply bool_decide_eq_true.
Qed.

Lemma existence_false (w : world artifact) (i : nat) :
  i < CacheNPY.repeat self ->
  E w !! i = Some false <-> disk w !! path i = None.
Proof.
  intros Hi. rewrite lookup_existence by exact Hi. split.
  - intros H. injection H as H. apply bool_decide_eq_false in H.
    now apply eq_None_not_Some.
  - intros H. f_equal. apply bool_decide_eq_false. now apply eq_None_not_Some.
Qed.

Lemma first_missing_lt (w : world artifact) (j : nat) :
  first_missing (E w) j -> j < CacheNPY.repeat self.
Proof.
  intros [Hj _]. apply lookup_lt_Some in Hj. now rewrite length_existence in Hj.
Qed.

Lemma all_existence (w : world artifact) :
  Py.all (E w) = true <->
  forall i, i < CacheNPY.repeat self -> is_Some (disk w !! path i).
Proof.
  split.
  - intros Hall i Hi. apply existence_true; [exact Hi|].
    apply all_true_lookup; [exact Hall|]. now rewrite length_existence.
  - intros H. destruct (Py.all (E w)) eqn:Hall; [reflexivity|].
    apply all_false_first_missing in Hall as [j Hj].
    pose proof (first_missing_lt _ _ Hj) as Hlt. destruct Hj as [Hj _].
    apply existence_false in Hj; [|exact Hlt].
    specialize (H j Hlt). rewrite Hj in H. now destruct H.
Qed.

(** The three ways a call of randomized mode can go. *)
Lemma call_randomized_cases (w : world artifact) :
  CacheNPY.pick_randomly self = true ->
  0 < CacheNPY.repeat self ->
  let i := random (ndraws w) mod CacheNPY.repeat self in
  (Py.all (E w) = true /\
   exists img, disk w !! path i = Some (Npy img) /\
               call w = (Return (CacheNPY.Array img), drawn w))
  \/ (Py.all (E w) = true /\ disk w !! path i = Some Garbage /\
      call w = compute_into self file_path i (drawn w))
  \/ (Py.all (E w) = false /\
      exists j, first_missing (E w) j /\ call w = compute_into self file_path j w).
Proof.
  intros Hpick Hrep i. rewrite (call_randomized_eq _ _ _ _ Hpick).
  assert (Hi : i < CacheNPY.repeat self) by (apply Nat.mod_upper_bound; lia).
  destruct (Py.all (E w)) eqn:Hall.
  - destruct (Nat.eqb_spec (CacheNPY.repeat self) 0) as [H0|_]; [lia|].
    cbn zeta. fold i. fold (drawn w).
    pose proof (proj1 (all_existence w) Hall i Hi) as [f Hf].
    rewrite Hf. destruct f as [img|].
    + left. split; [reflexivity|]. exists img. split; reflexivity.
    + right. left. split; [reflexivity|]. split; [reflexivity|].
      rewrite recompute_eq. unfold compute_into.
      rewrite (index_first_missing _ i); [reflexivity|].
      apply first_missing_marked; [exact Hall|]. now rewrite length_existence.
  - right. right. split; [reflexivity|].
    destruct (all_false_first_missing _ Hall) as [j Hj]. exists j.
    split; [exact Hj|]. rewrite recompute_eq. unfold compute_into.
    now rewrite (index_first_missing _ j Hj).
Qed.

End Randomized.

(** ** The cache: what a call does *)

Section CacheTheorems.

Context {artifact : Type}.
Variable random : nat -> nat.
Variable self : @CacheNPY.t artifact.
Variable file_path : string.

Local Abbreviation path := (CacheNPY.npy_path self file_path).
Local Abbreviation call := (CacheNPY.__call__ random self file_path).
Local Abbreviation E w := (existence self file_path w).
Local Abbreviation trans k := (CacheNPY.transform self k file_path).
Local Abbreviation tline := (transform_line file_path).
Local Abbreviation eline := (exception_line file_path).

(** Randomized mode with a slot missing: the transform's array goes to the
    lowest missing slot. *)
Lemma call_randomized_missing (w : world artifact) (img : artifact) :
  CacheNPY.pick_randomly self = true ->
  trans (ncalls w) = Return img ->
  Py.all (E w) = false ->
  exists j,
    first_missing (E w) j /\ j < CacheNPY.repeat self /\
    disk w !! path j = None /\
    call w =
      (Return (CacheNPY.Array img),
       World (<[path j := Npy img]> (disk w)) (stdout w ++ [tline])
             (S (ncalls w)) (ndraws w)).
Proof.
  intros Hpick Ht Hall. rewrite (call_randomized_eq _ _ _ _ Hpick), Hall.
  destruct (all_false_first_missing _ Hall) as [j Hj]. exists j.
  pose proof (first_missing_lt _ _ _ _ Hj) as Hlt.
  split; [exact Hj|]. split; [exact Hlt|]. split.
  - apply (existence_false self file_path w j Hlt), Hj.
  - rewrite recompute_eq, Ht. now rewrite (index_first_missing _ j Hj).
Qed.


(** C2. In randomized mode, when every slot file exists and the slot drawn
    at random loads, the call returns the loaded array and leaves the disk,
    the output and the count of transform invocations as they were (only
    the random generator has advanced). And whatever the disk holds, a
    call in randomized mode invokes the transform at most once. *)
Theorem randomized_hit_no_transform (w : world artifact) :
  CacheNPY.pick_randomly self = true ->
  (forall img,
     0 < CacheNPY.repeat self ->
     (forall i, i < CacheNPY.repeat self -> is_Some (disk w !! path i)) ->
     disk w !! path (random (ndraws w) mod CacheNPY.repeat self) = Some (Npy img) ->
     call w = (Return (CacheNPY.Array img), drawn w)
     /\ ncalls (snd (call w)) = ncalls w)
  /\ ncalls (snd (call w)) <= ncalls w + 1.
Proof.
  intros Hpick. split.
  - intros img Hrep Hall Hload.
    destruct (call_randomized_cases random self file_path w Hpick Hrep)
      as [(_ & img' & Hd & Hc)|[(_ & Hd & _)|(Hnot & _)]].
    + rewrite Hload in Hd. injection Hd as <-. rewrite Hc. split; reflexivity.
    + rewrite Hload in Hd. discriminate.
    + apply all_existence in Hall. congruence.
  - rewrite (call_randomized_eq _ _ _ _ Hpick).
    destruct (Py.all (E w)).
    + destruct (Nat.eqb (CacheNPY.repeat self) 0); [cbn; lia|]. cbn zeta.
      destruct (disk w !! path _) as [[img|]|]; [cbn; lia| |];
        rewrite recompute_eq; cbn [ncalls];
        destruct (trans (ncalls w)); [|cbn; lia| |cbn; lia];
        destruct (Py.index false _); cbn; lia.
    + rewrite recompute_eq. destruct (trans (ncalls w)); [|cbn; lia].
      destruct (Py.index false _); cbn; lia.
Qed.



(** A call leaves every path alone that is not one of the item's slots. *)
Lemma call_frame (w : world artifact) (p : string) :
  (forall i, i < CacheNPY.repeat self -> p <> path i) ->
  disk (snd (call w)) !! p = disk w !! p.
Proof.
  intros Hp. destruct (CacheNPY.pick_randomly self) eqn:Hpick.
  - assert (Hcomp : forall j w0, j < CacheNPY.repeat self ->
              disk (snd (compute_into self file_path j w0)) !! p = disk w0 !! p).
    { intros j w0 Hj. unfold compute_into.
      destruct (trans (ncalls w0)); [|reflexivity]. cbn [snd disk].
      apply lookup_insert_ne. intros Heq. apply (Hp j Hj). now symmetry. }
    destruct (Nat.eq_dec (CacheNPY.repeat self) 0) as [H0|Hrep].
    + rewrite (call_randomized_eq _ _ _ _ Hpick).
      unfold existence. rewrite H0. reflexivity.
    + destruct (call_randomized_cases random self file_path w Hpick ltac:(lia))
        as [(_ & img & _ & Hc)|[(_ & _ & Hc)|(_ & j & Hj & Hc)]]; rewrite Hc.
      * reflexivity.
      * rewrite Hcomp; [reflexivity|]. apply Nat.mod_upper_bound. lia.
      * apply Hcomp. apply (first_missing_lt _ _ _ _ Hj).
  - rewrite (call_exhaustive_eq _ _ _ _ Hpick).
    destruct (for_in _ _ _ w) as [r w1] eqn:Hloop.
    assert (disk w1 !! p = disk w !! p) as Hw1.
    { apply (loop_frame _ _ _ _ _ _ _ _ Hloop). intros i Hi. apply Hp.
      unfold Py.range in Hi. apply elem_of_seq in Hi. lia. }
    destruct r; exact Hw1.
Qed.

(** C7. If the transform raises when the cache invokes it, [check_trans]
    prints the line naming the file and raises the same exception; and a
    call of the cache, in either mode, during which an invocation of the
    transform raised, raises that exception, its last printed line being
    the one naming the file. So a call that returns has had every one of
    its invocations of the transform return. *)
Theorem transform_failure_reraised (w : world artifact) :
  (forall e, trans (ncalls w) = Raise e ->
     CacheNPY.check_trans self file_path w =
       (Raise e,
        World (disk w) (stdout w ++ [tline; eline]) (S (ncalls w)) (ndraws w)))
  /\ (forall k e,
        ncalls w <= k < ncalls (snd (call w)) -> trans k = Raise e ->
        fst (call w) = Raise e /\ last (stdout (snd (call w))) = Some eline)
  /\ (forall v k,
        fst (call w) = Return v ->
        ncalls w <= k < ncalls (snd (call w)) ->
        exists img, trans k = Return img).
Proof.
  assert (Hmain : forall k e,
            ncalls w <= k < ncalls (snd (call w)) -> trans k = Raise e ->
            fst (call w) = Raise e /\ last (stdout (snd (call w))) = Some eline).
  { intros k e. destruct (CacheNPY.pick_randomly self) eqn:Hpick.
    - assert (Hrec : forall L w0, ncalls w0 = ncalls w ->
                ncalls w <= k < ncalls (snd (recompute self file_path L w0)) ->
                trans k = Raise e ->
                fst (recompute self file_path L w0) = Raise e
                /\ last (stdout (snd (recompute self file_path L w0))) = Some eline).
      { intros L w0 Hn. rewrite recompute_eq, Hn.
        destruct (trans (ncalls w)) as [img|e'] eqn:Ht.
        - destruct (Py.index false L); cbn; intros Hk Hfail;
            assert (k = ncalls w) as -> by lia; congruence.
        - cbn. intros Hk Hfail. assert (k = ncalls w) as -> by lia.
          split; [congruence|]. apply last_snoc. }
      rewrite (call_randomized_eq _ _ _ _ Hpick).
      destruct (Py.all (E w)).
      + destruct (Nat.eqb (CacheNPY.repeat self) 0); [cbn; lia|]. cbn zeta.
        destruct (disk w !! path _) as [[img|]|]; [cbn; lia| |];
          apply Hrec; reflexivity.
      + apply Hrec. reflexivity.
    - rewrite (call_exhaustive_eq _ _ _ _ Hpick).
      destruct (for_in _ _ _ w) as [r w1] eqn:Hloop.
      intros Hk Hfail.
      assert (r = Raise e /\ last (stdout w1) = Some eline) as [-> Hl].
      { apply (loop_failure_propagates _ _ _ _ _ _ _ k e Hloop); [|exact Hfail].
        destruct r; exact Hk. }
      split; [reflexivity|exact Hl]. }
  split; [|split; [exact Hmain|]].
  - intros e Ht. rewrite check_trans_eq, Ht. now rewrite <- app_assoc.
  - intros v k Hv Hk. destruct (trans k) as [img|e] eqn:Ht; [eauto|].
    destruct (Hmain k e Hk Ht) as [Hr _]. congruence.
Qed.

(** What exhaustive mode returns, slot by slot. *)
Lemma call_exhaustive_return (w w' : world artifact) (output : list artifact) :
  CacheNPY.pick_randomly self = false ->
  call w = (Return (CacheNPY.List output), w') ->
  length output = CacheNPY.repeat self /\
  forall i, i < CacheNPY.repeat self ->
    exists img,
      output !! i = Some img /\ disk w' !! path i = Some (Npy img) /\
      (disk w !! path i = Some (Npy img)
       \/ ((forall a, disk w !! path i <> Some (Npy a)) /\
           exists k, ncalls w <= k < ncalls w' /\ trans k = Return img)).
Proof.
  intros Hpick Hcall. rewrite (call_exhaustive_eq _ _ _ _ Hpick) in Hcall.
  destruct (for_in _ _ _ w) as [[out|e] w1] eqn:Hloop; [|discriminate].
  injection Hcall as -> ->.
  destruct (loop_return _ _ _ _ _ _ _ (NoDup_seq 0 _) Hloop) as (imgs & Ho & Hlen & Hall).
  cbn in Ho. subst imgs. unfold Py.range in Hlen. rewrite length_seq in Hlen.
  split; [exact Hlen|]. intros i Hi. apply (Hall i i).
  unfold Py.range. now rewrite lookup_seq_lt.
Qed.


(** C4. In exhaustive mode with [repeat = 3], no slot file on disk and a
    transform that returns, one call invokes the transform three times and
    returns the three arrays in the order computed, each saved under its own
    index. And whenever a call of exhaustive mode returns, its result has
    one array per index below [repeat], the array at index [i] being the
    content of slot [i]. *)
Theorem exhaustive_returns_every_slot (w : world artifact) :
  CacheNPY.pick_randomly self = false ->
  (forall a b c,
     CacheNPY.repeat self = 3 ->
     (forall i, i < 3 -> disk w !! path i = None) ->
     trans (ncalls w) = Return a ->
     trans (ncalls w + 1) = Return b ->
     trans (ncalls w + 2) = Return c ->
     let w' := World (<[path 2 := Npy c]> (<[path 1 := Npy b]> (<[path 0 := Npy a]> (disk w))))
                     (stdout w ++ [tline; tline; tline]) (ncalls w + 3) (ndraws w) in
     call w = (Return (CacheNPY.List [a; b; c]), w') /\
     disk w' !! path 0 = Some (Npy a) /\
     disk w' !! path 1 = Some (Npy b) /\
     disk w' !! path 2 = Some (Npy c))
  /\ (forall output w',
        call w = (Return (CacheNPY.List output), w') ->
        length output = CacheNPY.repeat self /\
        forall i, i < CacheNPY.repeat self ->
          exists img, output !! i = Some img /\ disk w' !! path i = Some (Npy img)).
Proof.
  intros Hpick. split.
  - intros a b c H3 Hnone Ha Hb Hc w'.
    assert (Hne : forall i j, i <> j -> path i <> path j).
    { intros i j Hij Heq. apply Hij. eapply npy_path_inj. exact Heq. }
    split; [|split; [|split]].
    + rewrite (call_exhaustive_eq _ _ _ _ Hpick), H3. unfold Py.range. cbn [seq].
      rewrite (loop_cons_miss _ _ 0 _ _ _ a) by (try apply Hnone; auto).
      rewrite (loop_cons_miss _ _ 1 _ _ _ b).
      2: { cbn [disk]. rewrite lookup_insert_ne by (apply Hne; lia). apply Hnone. lia. }
      2: { cbn [ncalls]. now rewrite <- Nat.add_1_r. }
      rewrite (loop_cons_miss _ _ 2 _ _ _ c).
      2: { cbn [disk]. rewrite !lookup_insert_ne by (apply Hne; lia). apply Hnone. lia. }
      2: { cbn [ncalls]. now replace (S (S (ncalls w))) with (ncalls w + 2) by lia. }
      cbn [for_in ret disk stdout ncalls ndraws app]. unfold w'.
      rewrite <- !app_assoc. cbn [app].
      now replace (S (S (S (ncalls w)))) with (ncalls w + 3) by lia.
    + unfold w'. cbn [disk]. rewrite !lookup_insert_ne by (apply Hne; lia).
      apply lookup_insert_eq.
    + unfold w'. cbn [disk]. rewrite lookup_insert_ne by (apply Hne; lia).
      apply lookup_insert_eq.
    + unfold w'. cbn [disk]. apply lookup_insert_eq.
  - intros output w' Hcall.
    destruct (call_exhaustive_return _ _ _ Hpick Hcall) as (Hlen & Hslots).
    split; [exact Hlen|]. intros i Hi.
    destruct (Hslots i Hi) as (img & Ho & Hd & _). eauto.
Qed.

(** C5. In exhaustive mode, after a call that returned, a second call on
    the same item with the disk as the first call left it returns the same
    list and changes nothing: it invokes the transform zero times. *)
Theorem exhaustive_idempotent (w w1 : world artifact) (v : CacheNPY.returned) :
  CacheNPY.pick_randomly self = false ->
  call w = (Return v, w1) ->
  call w1 = (Return v, w1) /\ ncalls (snd (call w1)) = ncalls w1.
Proof.
  intros Hpick Hcall.
  assert (Hsecond : call w1 = (Return v, w1)).
  { destruct v as [img|output].
    { rewrite (call_exhaustive_eq _ _ _ _ Hpick) in Hcall.
      destruct (for_in _ _ _ w) as [[out|e] w0]; discriminate. }
    destruct (call_exhaustive_return _ _ _ Hpick Hcall) as (Hlen & Hslots).
    rewrite (call_exhaustive_eq _ _ _ _ Hpick).
    rewrite (loop_all_valid self file_path _ [] output w1).
    - reflexivity.
    - unfold Py.range. now rewrite length_seq.
    - intros n i Hn. unfold Py.range in Hn. apply lookup_seq in Hn as [-> Hlt].
      destruct (Hslots n Hlt) as (img & Ho & Hd & _). eauto. }
  split; [exact Hsecond|]. now rewrite Hsecond.
Qed.

End CacheTheorems.

(** ** The slot files a cache creates *)

Section SlotBound.

Context {artifact : Type}.
Variable random : nat -> nat.

Lemma npy_path_prefix (c self : @CacheNPY.t artifact) (file_path : string) (i : nat) :
  CacheNPY.prefix c = CacheNPY.prefix self ->
  CacheNPY.npy_path c file_path i = CacheNPY.npy_path self file_path i.
Proof. intros H. unfold CacheNPY.npy_path. now rewrite H. Qed.

Lemma elem_of_slots (self : @CacheNPY.t artifact) (file_path p : string) :
  p ∈ slots self file_path <->
  exists i, i < CacheNPY.repeat self /\ p = CacheNPY.npy_path self file_path i.
Proof.
  unfold slots, Py.range. rewrite elem_of_list_to_set, list_elem_of_fmap. split.
  - intros (i & -> & Hi). apply elem_of_seq in Hi. exists i. split; [lia|reflexivity].
  - intros (i & Hi & ->). exists i. split; [reflexivity|]. apply elem_of_seq. lia.
Qed.

Lemma size_slots (self : @CacheNPY.t artifact) (file_path : string) :
  size (slots self file_path) = CacheNPY.repeat self.
Proof.
  unfold slots, Py.range. rewrite size_list_to_set.
  - now rewrite length_map, length_seq.
  - apply NoDup_fmap_2; [|apply NoDup_seq].
    intros i j. apply npy_path_inj.
Qed.

(** Whatever a sequence of calls changes on disk is a slot of one of the
    calls. *)
Lemma call_all_changes (calls : list (@CacheNPY.t artifact * string))
    (w : world artifact) (p : string) :
  disk (call_all random calls w) !! p <> disk w !! p ->
  exists c file_path,
    (c, file_path) ∈ calls /\ p ∈ slots c file_path.
Proof.
  revert w. induction calls as [|[c fp] calls IH]; intros w Hchg.
  - now contradiction Hchg.
  - cbn [call_all fold_left fst snd] in Hchg.
    destruct (decide (p ∈ slots c fp)) as [Hin|Hout].
    + exists c, fp. split; [left|exact Hin].
    + assert (Hsame : disk (snd (CacheNPY.__call__ random c fp w)) !! p = disk w !! p).
      { apply call_frame. intros i Hi ->. apply Hout, elem_of_slots. eauto. }
      rewrite <- Hsame in Hchg.
      destruct (IH _ Hchg) as (c' & fp' & Hin' & Hp).
      exists c', fp'. split; [now right|exact Hp].
Qed.

(** C6. Whatever a sequence of calls of caches, in either mode and on any
    items, changes on disk is a slot file of one of the calls, of an index
    below that cache's [repeat]. An item has exactly [repeat] slot paths;
    so the files that calls on one item create, by caches with one prefix
    and one [repeat], are among them and at most [repeat] in number. *)
Theorem slot_bound (calls : list (@CacheNPY.t artifact * string)) (w : world artifact) :
  (forall p,
     disk (call_all random calls w) !! p <> disk w !! p ->
     exists c file_path i,
       (c, file_path) ∈ calls /\ i < CacheNPY.repeat c /\
       p = CacheNPY.npy_path c file_path i)
  /\ (forall (self : @CacheNPY.t artifact) file_path,
        (forall c, c ∈ calls ->
           CacheNPY.prefix (fst c) = CacheNPY.prefix self /\
           CacheNPY.repeat (fst c) = CacheNPY.repeat self /\
           snd c = file_path) ->
        dom (disk (call_all random calls w)) ∖ dom (disk w) ⊆ slots self file_path /\
        size (dom (disk (call_all random calls w)) ∖ dom (disk w)) <= CacheNPY.repeat self)
  /\ (forall (self : @CacheNPY.t artifact) file_path,
        size (slots self file_path) = CacheNPY.repeat self).
Proof.
  split; [|split].
  - intros p Hchg.
    destruct (call_all_changes calls w p Hchg) as (c & fp & Hin & Hp).
    apply elem_of_slots in Hp as (i & Hi & ->). eauto 6.
  - intros self fp Hsame.
    assert (Hsub : dom (disk (call_all random calls w)) ∖ dom (disk w) ⊆ slots self fp).
    { intros p Hp. apply elem_of_difference in Hp as [Hnew Hold].
      apply elem_of_dom in Hnew. apply not_elem_of_dom in Hold.
      assert (Hchg : disk (call_all random calls w) !! p <> disk w !! p).
      { rewrite Hold. destruct Hnew as [f Hf]. rewrite Hf. discriminate. }
      destruct (call_all_changes calls w p Hchg) as (c & fp' & Hin & Hslot).
      destruct (Hsame _ Hin) as (Hpre & Hrep & Hfp). cbn in Hpre, Hrep, Hfp. subst fp'.
      apply elem_of_slots in Hslot as (i & Hi & ->).
      apply elem_of_slots. exists i. split; [lia|]. now apply npy_path_prefix. }
    split; [exact Hsub|].
    rewrite <- (size_slots self fp). apply subseteq_size. exact Hsub.
  - intros self fp. apply size_slots.
Qed.

End SlotBound.

(** ** The dataset: indexing and labels *)

Lemma split_nonempty (c : ascii) (s : string) : Py.split c s <> [].
Proof.
  destruct s as [|a s]; cbn; [discriminate|].
  destruct (Ascii.eqb a c); [discriminate|]. destruct (Py.split c s); discriminate.
Qed.

Lemma split_no_sep (c : ascii) (s : string) :
  Py.contains c s = false -> Py.split c s = [s].
Proof.
  induction s as [|a s IH]; cbn; [reflexivity|].
  destruct (Ascii.eqb a c); cbn; [discriminate|].
  intros H. now rewrite (IH H).
Qed.

Lemma split_append (c : ascii) (s t : string) :
  Py.split c (s +:+ String c t) = Py.split c s ++ Py.split c t.
Proof.
  induction s as [|a s IH].
  - change (Py.split c (String c t) = "" :: Py.split c t).
    cbn [Py.split]. now rewrite Ascii.eqb_refl.
  - rewrite append_cons. cbn [Py.split]. destruct (Ascii.eqb a c).
    + now rewrite IH.
    + rewrite IH. pose proof (split_nonempty c s) as Hne.
      destruct (Py.split c s); [contradiction|reflexivity].
Qed.

Lemma getitem_third_from_last {A} (l : list A) (a b c : A) :
  Py.getitem (l ++ [a; b; c]) (-3) = Return a.
Proof.
  unfold Py.getitem. rewrite length_app. cbn [length].
  replace (-3 <? 0)%Z with true by reflexivity.
  replace (-3 + Z.of_nat (length l + 3))%Z with (Z.of_nat (length l)) by lia.
  destruct (Z.ltb_spec (Z.of_nat (length l)) 0); [lia|].
  destruct (Z.leb_spec (Z.of_nat (length l + 3)) (Z.of_nat (length l))); [lia|].
  cbn [orb]. rewrite Nat2Z.id.
  rewrite lookup_app_r by lia. now rewrite Nat.sub_diag.
Qed.

Lemma getitem_in_range {A} (l : list A) (i : Z) :
  (- Z.of_nat (length l) <= i < Z.of_nat (length l))%Z ->
  exists x,
    l !! Z.to_nat (if (i <? 0)%Z then i + Z.of_nat (length l) else i)%Z = Some x /\
    Py.getitem l i = Return x.
Proof.
  intros Hi. unfold Py.getitem.
  set (k := (if (i <? 0)%Z then (i + Z.of_nat (length l))%Z else i)).
  assert (Hk : (0 <= k < Z.of_nat (length l))%Z).
  { unfold k. destruct (Z.ltb_spec i 0); lia. }
  destruct (Z.ltb_spec k 0); [lia|].
  destruct (Z.leb_spec (Z.of_nat (length l)) k); [lia|]. cbn [orb].
  destruct (lookup_lt_is_Some_2 l (Z.to_nat k) ltac:(lia)) as [x Hx].
  exists x. now rewrite Hx.
Qed.

Lemma getitem_out_of_range {A} (l : list A) (i : Z) :
  (i < - Z.of_nat (length l) \/ Z.of_nat (length l) <= i)%Z ->
  Py.getitem l i = Raise IndexError.
Proof.
  intros Hi. unfold Py.getitem.
  destruct (Z.ltb_spec i 0).
  - destruct (Z.ltb_spec (i + Z.of_nat (length l)) 0); [reflexivity|lia].
  - destruct (Z.ltb_spec i 0); [lia|].
    destruct (Z.leb_spec (Z.of_nat (length l)) i); [reflexivity|lia].
Qed.

Section DatasetTheorems.

Context {artifact X Y : Type}.
Variable self : @ModelNet10.t artifact X Y.

(** C8. When the file at the index has the layout
    [root/<label>/<split>/<item-file>], the label that [__getitem__] derives
    is the third component from the end of the path, [<label>]: it is what
    the label mapping receives, and what is returned when there is none. *)
Theorem label_is_third_from_last (index : Z) (w : world artifact)
    (root label split item : string) :
  let img := root +:+ "/" +:+ label +:+ "/" +:+ split +:+ "/" +:+ item in
  Py.getitem (ModelNet10.files self) index = Return img ->
  Py.contains Py.sep label = false ->
  Py.contains Py.sep split = false ->
  Py.contains Py.sep item = false ->
  Py.getitem (Py.split Py.sep img) (-3) = Return label
  /\ ModelNet10.__getitem__ self index w =
     (img' <- ModelNet10.rebind (ModelNet10.transform self) img ;;
      target <- ModelNet10.rebind (ModelNet10.target_transform self) label ;;
      ret (img', target))%py w.
Proof.
  intros img Hfile Hlabel Hsplit Hitem.
  assert (Htoken : Py.getitem (Py.split Py.sep img) (-3) = Return label).
  { unfold img.
    change (root +:+ "/" +:+ label +:+ "/" +:+ split +:+ "/" +:+ item)
      with (root +:+ String Py.sep (label +:+ String Py.sep (split +:+ String Py.sep item))).
    rewrite !split_append.
    rewrite (split_no_sep _ _ Hlabel), (split_no_sep _ _ Hsplit), (split_no_sep _ _ Hitem).
    cbn [app]. apply getitem_third_from_last. }
  split; [exact Htoken|].
  unfold ModelNet10.__getitem__. unfold bind at 1, lift at 1. rewrite Hfile.
  fold img. unfold bind at 1, lift at 1. rewrite Htoken. reflexivity.
Qed.

(** C9, as the code has it. An index below [-len] or at or above [len]
    makes [__getitem__] raise [IndexError], before either callable is
    invoked and with the world unchanged; in particular the index [len]
    does. (The indices from [-len] to [-1] are not errors: they count from
    the end.) *)
Theorem getitem_index_error (index : Z) (w : world artifact) :
  ((index < - ModelNet10.__len__ self \/ ModelNet10.__len__ self <= index)%Z ->
   ModelNet10.__getitem__ self index w = (Raise IndexError, w))
  /\ ModelNet10.__getitem__ self (ModelNet10.__len__ self) w = (Raise IndexError, w).
Proof.
  assert (H : forall i,
            (i < - ModelNet10.__len__ self \/ ModelNet10.__len__ self <= i)%Z ->
            ModelNet10.__getitem__ self i w = (Raise IndexError, w)).
  { intros i Hi. unfold ModelNet10.__getitem__, bind at 1, lift at 1.
    now rewrite (getitem_out_of_range _ _ Hi). }
  split; [apply H|]. apply H. right. lia.
Qed.


End DatasetTheorems.

(** ** The theorems on the small instance *)

Example example_slot_1 :
  example_slot 1 = "data/ModelNet10/chair/train/v64_chair_0001_1.npy".
Proof. reflexivity. Qed.

Example split_example :
  Py.split Py.sep "root/chair/train/item1.ext" = ["root"; "chair"; "train"; "item1.ext"].
Proof. reflexivity. Qed.

Example os_path_split_example :
  Py.os_path_split example_item = ("data/ModelNet10/chair/train", "chair_0001.obj")
  /\ Py.os_path_splitext "chair_0001.obj" = ("chair_0001", ".obj").
Proof. split; reflexivity. Qed.

Lemma full_world_slots (i : nat) :
  i < 3 -> is_Some (disk full_world !! example_slot i).
Proof.
  intros Hi. destruct i as [|[|[|i]]]; [vm_compute; eauto..|lia].
Defined.


Lemma empty_world_slots (i : nat) :
  i < 3 -> disk empty_world !! example_slot i = None.
Proof. intros _. reflexivity. Defined.

Lemma randomized_hit_no_transform_witness :
  CacheNPY.__call__ example_random (example_cache true) example_item full_world
  = (Return (CacheNPY.Array 11), drawn full_world).
Proof.
  apply (randomized_hit_no_transform example_random (example_cache true)
           example_item full_world eq_refl).
  - cbn. lia.
  - exact full_world_slots.
  - vm_compute. reflexivity.
Defined.



Lemma exhaustive_returns_every_slot_witness :
  CacheNPY.__call__ example_random (example_cache false) example_item empty_world
  = (Return (CacheNPY.List [100; 101; 102]),
     World (<[example_slot 2 := Npy 102]>
              (<[example_slot 1 := Npy 101]> (<[example_slot 0 := Npy 100]> ∅)))
           [transform_line example_item; transform_line example_item;
            transform_line example_item]
           3 0).
Proof.
  apply (proj1 (exhaustive_returns_every_slot example_random (example_cache false)
                  example_item empty_world eq_refl) 100 101 102 eq_refl
           empty_world_slots eq_refl eq_refl eq_refl).
Defined.

Lemma exhaustive_idempotent_witness :
  let w1 := snd (CacheNPY.__call__ example_random (example_cache false)
                   example_item empty_world) in
  CacheNPY.__call__ example_random (example_cache false) example_item w1
  = (Return (CacheNPY.List [100; 101; 102]), w1)
  /\ ncalls (snd (CacheNPY.__call__ example_random (example_cache false) example_item w1))
     = ncalls w1.
Proof.
  intros w1.
  apply (exhaustive_idempotent example_random (example_cache false) example_item
           empty_world w1 (CacheNPY.List [100; 101; 102]) eq_refl).
  apply injective_projections; [vm_compute; reflexivity|reflexivity].
Defined.

Lemma slot_bound_witness :
  let calls := [(example_cache true, example_item); (example_cache false, example_item);
                (failing_cache true, example_item)] in
  dom (disk (call_all example_random calls empty_world)) ∖ dom (disk empty_world)
    ⊆ slots (example_cache true) example_item
  /\ size (dom (disk (call_all example_random calls empty_world)) ∖ dom (disk empty_world))
     <= 3.
Proof.
  intros calls.
  apply (proj1 (proj2 (slot_bound example_random calls empty_world))
           (example_cache true) example_item).
  intros c Hc. unfold calls in Hc.
  repeat (apply elem_of_cons in Hc as [->|Hc]; [repeat split|]).
  apply elem_of_nil in Hc. destruct Hc.
Defined.

Lemma transform_failure_reraised_witness :
  fst (CacheNPY.__call__ example_random (failing_cache false) example_item partial_world)
  = Raise (OtherError "CalledProcessError")
  /\ last (stdout (snd (CacheNPY.__call__ example_random (failing_cache false)
                          example_item partial_world)))
     = Some (exception_line example_item).
Proof.
  apply (proj1 (proj2 (transform_failure_reraised example_random (failing_cache false)
                         example_item partial_world)) 0).
  - vm_compute. split; constructor.
  - reflexivity.
Defined.

Lemma label_is_third_from_last_witness :
  ModelNet10.__getitem__ example_dataset 0 empty_world
  = (Return (inl "root/chair/train/item1.ext", inl "chair"), empty_world).
Proof.
  apply (proj2 (label_is_third_from_last example_dataset 0 empty_world
                  "root" "chair" "train" "item1.ext"
                  eq_refl eq_refl eq_refl eq_refl)).
Defined.

(** C9, as the specification states it, fails: the index -1 is outside
    [[0, len)] and yet [__getitem__] returns, with the last file. *)
Lemma getitem_negative_index_not_an_error :
  ~ (0 <= -1 < ModelNet10.__len__ example_dataset)%Z
  /\ ModelNet10.__getitem__ example_dataset (-1) empty_world
     = (Return (inl "root/desk/train/item2.ext", inl "desk"), empty_world).
Proof.
  split; [|reflexivity].
  unfold ModelNet10.__len__. cbn [ModelNet10.files example_dataset length]. lia.
Qed.

Lemma getitem_index_error_witness :
  ModelNet10.__getitem__ example_dataset 2 empty_world = (Raise IndexError, empty_world)
  /\ ModelNet10.__getitem__ example_dataset (-3) empty_world
     = (Raise IndexError, empty_world).
Proof.
  split.
  - apply (proj1 (getitem_index_error example_dataset 2 empty_world)).
    right. unfold ModelNet10.__len__. cbn [ModelNet10.files example_dataset length]. lia.
  - apply (proj1 (getitem_index_error example_dataset (-3) empty_world)).
    left. unfold ModelNet10.__len__. cbn [ModelNet10.files example_dataset length]. lia.
Defined.


(** ** More on the cache *)

Section CacheInvariants.

Context {artifact : Type}.
Variable random : nat -> nat.

Lemma compute_into_keeps (self : @CacheNPY.t artifact) (file_path : string)
    (j : nat) (w : world artifact) (p : string) (f : file artifact) :
  (forall a, disk w !! CacheNPY.npy_path self file_path j <> Some (Npy a)) ->
  disk w !! p = Some f ->
  (exists f', disk (snd (compute_into self file_path j w)) !! p = Some f')
  /\ (forall a, f = Npy a ->
        disk (snd (compute_into self file_path j w)) !! p = Some (Npy a)).
Proof.
  intros Hj Hp. unfold compute_into.
  destruct (CacheNPY.transform self (ncalls w) file_path) as [img|e]; cbn [snd disk].
  - destruct (decide (CacheNPY.npy_path self file_path j = p)) as [<-|Hne].
    + split; [rewrite lookup_insert_eq; eauto|].
      intros a ->. exfalso. apply (Hj a). exact Hp.
    + rewrite lookup_insert_ne by exact Hne. split; [eauto|]. now intros a ->.
  - split; [eauto|]. now intros a ->.
Qed.

Lemma loop_keeps_files (self : @CacheNPY.t artifact) (file_path : string)
    (l : list nat) (output : list artifact) (w : world artifact) (p : string) :
  is_Some (disk w !! p) ->
  is_Some (disk (snd (for_in l (load_or_compute self file_path) output w)) !! p).
Proof.
  revert output w. induction l as [|i l IH]; intros output w Hp; [exact Hp|].
  rewrite loop_cons.
  pose proof (load_or_compute_step self file_path i output w) as Hs.
  destruct (load_or_compute self file_path i output w) as [[o1|e] w1];
    cbn [fst snd] in Hs.
  - apply IH. inversion Hs as [img Hd|img Hd Ht|]; subst; [exact Hp|]. cbn [disk].
    destruct (decide (CacheNPY.npy_path self file_path i = p)) as [<-|Hne].
    + rewrite lookup_insert_eq. eauto.
    + now rewrite lookup_insert_ne.
  - inversion Hs; subst. exact Hp.
Qed.

Lemma call_keeps (self : @CacheNPY.t artifact) (file_path : string)
    (w : world artifact) (p : string) :
  (is_Some (disk w !! p) ->
   is_Some (disk (snd (CacheNPY.__call__ random self file_path w)) !! p))
  /\ (forall a, disk w !! p = Some (Npy a) ->
        disk (snd (CacheNPY.__call__ random self file_path w)) !! p = Some (Npy a)).
Proof.
  destruct (CacheNPY.pick_randomly self) eqn:Hpick.
  - destruct (Nat.eq_dec (CacheNPY.repeat self) 0) as [H0|Hrep].
    { rewrite (call_randomized_eq _ _ _ _ Hpick). unfold existence. rewrite H0.
      cbn. split; auto. }
    destruct (call_randomized_cases random self file_path w Hpick ltac:(lia))
      as [(_ & img & _ & Hc)|[(_ & Hd & Hc)|(_ & j & Hj & Hc)]]; rewrite Hc.
    + cbn. split; auto.
    + assert (Hno : forall a, disk (drawn w) !! CacheNPY.npy_path self file_path
                      (random (ndraws w) mod CacheNPY.repeat self) <> Some (Npy a)).
      { intros a. cbn [drawn disk]. rewrite Hd. discriminate. }
      split.
      * intros [f Hf]. apply (proj1 (compute_into_keeps _ _ _ (drawn w) p f Hno Hf)).
      * intros a Ha. apply (proj2 (compute_into_keeps _ _ _ (drawn w) p _ Hno Ha) a eq_refl).
    + assert (Hno : forall a, disk w !! CacheNPY.npy_path self file_path j
                               <> Some (Npy a)).
      { intros a. pose proof (first_missing_lt _ _ _ _ Hj) as Hlt.
        destruct Hj as [Hj _]. apply existence_false in Hj; [|exact Hlt].
        rewrite Hj. discriminate. }
      split.
      * intros [f Hf]. apply (proj1 (compute_into_keeps _ _ _ w p f Hno Hf)).
      * intros a Ha. apply (proj2 (compute_into_keeps _ _ _ w p _ Hno Ha) a eq_refl).
  - rewrite (call_exhaustive_eq _ _ _ _ Hpick).
    pose proof (loop_keeps_files self file_path (Py.range (CacheNPY.repeat self)) [] w p)
      as Hfiles.
    destruct (for_in _ _ _ w) as [r w1] eqn:Hloop. cbn [snd] in Hfiles.
    assert (Hvalid : forall a, disk w !! p = Some (Npy a) -> disk w1 !! p = Some (Npy a)).
    { intros a. apply (loop_keeps_valid _ _ _ _ _ _ _ _ _ Hloop). }
    destruct r; cbn [snd]; split; assumption.
Qed.

(** X1. No call of a cache, in either mode, and no sequence of calls
    deletes a file; and a file that holds an array is never written again:
    it holds the same array afterwards. *)
Theorem calls_keep_arrays (calls : list (@CacheNPY.t artifact * string))
    (w : world artifact) :
  dom (disk w) ⊆ dom (disk (call_all random calls w))
  /\ forall p a,
       disk w !! p = Some (Npy a) ->
       disk (call_all random calls w) !! p = Some (Npy a).
Proof.
  revert w. induction calls as [|[c fp] calls IH]; intros w.
  - split; [reflexivity|auto].
  - cbn [call_all fold_left fst snd].
    destruct (IH (snd (CacheNPY.__call__ random c fp w))) as [Hdom Harr]. split.
    + intros p Hp. apply Hdom. apply elem_of_dom. apply elem_of_dom in Hp.
      now apply call_keeps.
    + intros p a Hp. apply Harr. now apply call_keeps.
Qed.

(** X2. With [repeat = 0] a call in randomized mode raises [ValueError]
    (there is nothing to draw from) and a call in exhaustive mode returns
    the empty list; neither invokes the transform nor touches the world. *)
Theorem call_without_slots (self : @CacheNPY.t artifact) (file_path : string)
    (w : world artifact) :
  CacheNPY.repeat self = 0 ->
  CacheNPY.__call__ random self file_path w =
  if CacheNPY.pick_randomly self then (Raise ValueError, w)
  else (Return (CacheNPY.List []), w).
Proof.
  intros H0. destruct (CacheNPY.pick_randomly self) eqn:Hpick.
  - rewrite (call_randomized_eq _ _ _ _ Hpick). unfold existence. now rewrite H0.
  - rewrite (call_exhaustive_eq _ _ _ _ Hpick). now rewrite H0.
Qed.

End CacheInvariants.

Section CacheCounts.

Context {artifact : Type}.
Variable random : nat -> nat.
Variable self : @CacheNPY.t artifact.
Variable file_path : string.

Local Abbreviation path := (CacheNPY.npy_path self file_path).
Local Abbreviation call := (CacheNPY.__call__ random self file_path).
Local Abbreviation tline := (transform_line file_path).
Local Abbreviation pending w l :=
  (List.filter (fun i => negb (loadable w (path i))) l).

Lemma loop_count (l : list nat) (output output' : list artifact)
    (w w' : world artifact) :
  NoDup l ->
  for_in l (load_or_compute self file_path) output w = (Return output', w') ->
  ncalls w' = ncalls w + length (pending w l)
  /\ stdout w' = stdout w ++ replicate (length (pending w l)) tline.
Proof.
  revert output w. induction l as [|i l IH]; intros output w Hnd H.
  - injection H as <- <-. cbn. rewrite app_nil_r. split; [lia|reflexivity].
  - apply NoDup_cons in Hnd as [Hi Hnd].
    rewrite loop_cons, load_or_compute_eq in H. cbn [List.filter].
    assert (Hmiss : forall img,
              (forall a, disk w !! path i <> Some (Npy a)) ->
              for_in l (load_or_compute self file_path) (output ++ [img])
                (World (<[path i := Npy img]> (disk w)) (stdout w ++ [tline])
                       (S (ncalls w)) (ndraws w)) = (Return output', w') ->
              ncalls w' = ncalls w + length (i :: pending w l)
              /\ stdout w' = stdout w ++ replicate (length (i :: pending w l)) tline).
    { intros img Hd Hrest. destruct (IH _ _ Hnd Hrest) as [Hn Ho].
      assert (Hsame : pending
                (World (<[path i := Npy img]> (disk w)) (stdout w ++ [tline])
                       (S (ncalls w)) (ndraws w)) l
              = pending w l).
      { apply List.filter_ext_in. intros j Hj. apply list_elem_of_In in Hj.
        unfold loadable. cbn [disk]. rewrite lookup_insert_ne; [reflexivity|].
        intros Heq. apply npy_path_inj in Heq. subst j. contradiction. }
      rewrite Hsame in Hn, Ho. cbn [ncalls stdout] in Hn, Ho.
      cbn [length replicate]. split; [lia|].
      rewrite Ho, <- app_assoc. reflexivity. }
    destruct (loadable w (path i)) eqn:Hl; cbn [negb]; unfold loadable in Hl;
      destruct (disk w !! path i) as [[a|]|]; try discriminate.
    + apply (IH _ _ Hnd H).
    + destruct (CacheNPY.transform self (ncalls w) file_path) as [img|e];
        [|discriminate].
      apply (Hmiss img); [intros a; discriminate|exact H].
    + destruct (CacheNPY.transform self (ncalls w) file_path) as [img|e];
        [|discriminate].
      apply (Hmiss img); [intros a; discriminate|exact H].
Qed.

(** X3. A call in exhaustive mode that returns has invoked the transform
    once for each slot that did not load when it began, no more and no
    less, and has printed one line per invocation. *)
Theorem exhaustive_invocation_count (w w' : world artifact) (v : CacheNPY.returned) :
  CacheNPY.pick_randomly self = false ->
  call w = (Return v, w') ->
  ncalls w' = ncalls w + length (unloadable_slots self file_path w)
  /\ stdout w' = stdout w
                 ++ replicate (length (unloadable_slots self file_path w)) tline.
Proof.
  intros Hpick Hcall. rewrite (call_exhaustive_eq _ _ _ _ Hpick) in Hcall.
  destruct (for_in _ _ _ w) as [[out|e] w1] eqn:Hloop; [|discriminate].
  injection Hcall as _ <-.
  apply (loop_count _ _ _ _ _ (NoDup_seq 0 _) Hloop).
Qed.

Lemma call_steady (w : world artifact) :
  CacheNPY.pick_randomly self = true ->
  0 < CacheNPY.repeat self ->
  (forall i, i < CacheNPY.repeat self -> loadable w (path i) = true) ->
  snd (call w) = drawn w.
Proof.
  intros Hpick Hrep Hall.
  assert (Hi : random (ndraws w) mod CacheNPY.repeat self < CacheNPY.repeat self)
    by (apply Nat.mod_upper_bound; lia).
  destruct (call_randomized_cases random self file_path w Hpick Hrep)
    as [(_ & img & _ & Hc)|[(_ & Hd & _)|(_ & j & Hj & _)]].
  - now rewrite Hc.
  - specialize (Hall _ Hi). unfold loadable in Hall. rewrite Hd in Hall. discriminate.
  - pose proof (first_missing_lt _ _ _ _ Hj) as Hlt. destruct Hj as [Hj _].
    apply existence_false in Hj; [|exact Hlt].
    specialize (Hall _ Hlt). unfold loadable in Hall. rewrite Hj in Hall. discriminate.
Qed.

(** X4. Once every slot of an item loads, calls in randomized mode on it
    only draw and read: any number of them leaves the disk and the output
    as they were and never invokes the transform. *)
Theorem randomized_steady_state (n : nat) (w : world artifact) :
  CacheNPY.pick_randomly self = true ->
  0 < CacheNPY.repeat self ->
  (forall i, i < CacheNPY.repeat self -> loadable w (path i) = true) ->
  let w' := call_all random (replicate n (self, file_path)) w in
  disk w' = disk w /\ stdout w' = stdout w /\ ncalls w' = ncalls w
  /\ ndraws w' = ndraws w + n.
Proof.
  intros Hpick Hrep. revert w. induction n as [|n IH]; intros w Hall w'.
  - unfold w'. cbn. repeat split. lia.
  - unfold w'. cbn [replicate call_all fold_left fst snd].
    rewrite (call_steady w Hpick Hrep Hall).
    destruct (IH (drawn w) Hall) as (Hd & Ho & Hc & Hr).
    unfold call_all in Hd, Ho, Hc, Hr. rewrite Hd, Ho, Hc, Hr. cbn.
    repeat split. lia.
Qed.

(** A cache whose slots below [k] hold the arrays the transform returned
    from its invocation [c] on, and whose other slots are missing. *)
Lemma call_fills_next (f : nat -> artifact) (c k : nat) (w : world artifact) :
  CacheNPY.pick_randomly self = true ->
  (forall m, CacheNPY.transform self m file_path = Return (f m)) ->
  k < CacheNPY.repeat self ->
  ncalls w = c + k ->
  (forall i, i < CacheNPY.repeat self ->
     disk w !! path i = if i <? k then Some (Npy (f (c + i))) else None) ->
  let w1 := snd (call w) in
  ncalls w1 = c + S k /\ ndraws w1 = ndraws w /\
  (forall i, i < CacheNPY.repeat self ->
     disk w1 !! path i = if i <? S k then Some (Npy (f (c + i))) else None).
Proof.
  intros Hpick Hf Hk Hc Hfill w1.
  assert (Hall : Py.all (existence self file_path w) = false).
  { destruct (Py.all (existence self file_path w)) eqn:Hall; [|reflexivity].
    pose proof (proj1 (all_existence self file_path w) Hall k Hk) as [x Hx].
    rewrite (Hfill k Hk) in Hx. destruct (Nat.ltb_spec k k); [lia|discriminate]. }
  destruct (call_randomized_missing random self file_path w (f (ncalls w)) Hpick
              (Hf _) Hall) as (j & Hj & Hjlt & Hjnone & Hcall).
  assert (j = k) as ->.
  { destruct (Nat.lt_trichotomy j k) as [Hlt|[Heq|Hgt]]; [|exact Heq|].
    - rewrite (Hfill j Hjlt) in Hjnone.
      destruct (Nat.ltb_spec j k); [discriminate|lia].
    - destruct Hj as [_ Hlow]. specialize (Hlow k Hgt).
      apply existence_true in Hlow; [|exact Hk]. destruct Hlow as [x Hx].
      rewrite (Hfill k Hk) in Hx. destruct (Nat.ltb_spec k k); [lia|discriminate]. }
  unfold w1. rewrite Hcall. cbn [snd ncalls ndraws disk].
  split; [lia|]. split; [reflexivity|].
  intros i Hi. destruct (decide (i = k)) as [->|Hne].
  - rewrite lookup_insert_eq. destruct (Nat.ltb_spec k (S k)); [|lia].
    now rewrite Hc.
  - rewrite lookup_insert_ne by (intros Heq; apply npy_path_inj in Heq; lia).
    rewrite (Hfill i Hi).
    destruct (Nat.ltb_spec i k), (Nat.ltb_spec i (S k)); try lia; reflexivity.
Qed.

(** X5. Starting with no slot file for an item and a transform that
    returns, the first [repeat] calls in randomized mode never draw: each
    invokes the transform once and saves its array to the next free index,
    so that after [n <= repeat] calls exactly the slots below [n] exist,
    slot [i] holding the array of the [i]-th invocation. *)
Theorem randomized_cold_start (f : nat -> artifact) (n : nat) (w : world artifact) :
  CacheNPY.pick_randomly self = true ->
  (forall m, CacheNPY.transform self m file_path = Return (f m)) ->
  (forall i, i < CacheNPY.repeat self -> disk w !! path i = None) ->
  n <= CacheNPY.repeat self ->
  let w' := call_all random (replicate n (self, file_path)) w in
  ncalls w' = ncalls w + n /\ ndraws w' = ndraws w /\
  forall i, i < CacheNPY.repeat self ->
    disk w' !! path i = if i <? n then Some (Npy (f (ncalls w + i))) else None.
Proof.
  intros Hpick Hf Hnone Hn.
  assert (Hgen : forall m k (w0 : world artifact),
            k + m <= CacheNPY.repeat self ->
            ncalls w0 = ncalls w + k ->
            (forall i, i < CacheNPY.repeat self ->
               disk w0 !! path i
               = if i <? k then Some (Npy (f (ncalls w + i))) else None) ->
            let w' := call_all random (replicate m (self, file_path)) w0 in
            ncalls w' = ncalls w + (k + m) /\ ndraws w' = ndraws w0 /\
            forall i, i < CacheNPY.repeat self ->
              disk w' !! path i
              = if i <? k + m then Some (Npy (f (ncalls w + i))) else None).
  { induction m as [|m IH]; intros k w0 Hkm Hc Hfill w'.
    - unfold w'. cbn [replicate call_all fold_left]. rewrite Nat.add_0_r.
      split; [exact Hc|]. split; [reflexivity|exact Hfill].
    - unfold w'. cbn [replicate call_all fold_left fst snd].
      destruct (call_fills_next f (ncalls w) k w0 Hpick Hf ltac:(lia) Hc Hfill)
        as (Hc1 & Hr1 & Hfill1).
      destruct (IH (S k) (snd (call w0)) ltac:(lia) Hc1 Hfill1) as (Hc2 & Hr2 & Hfill2).
      unfold call_all in Hc2, Hr2, Hfill2.
      replace (k + S m) with (S k + m) by lia.
      split; [exact Hc2|]. split; [congruence|exact Hfill2]. }
  intros w'.
  destruct (Hgen n 0 w ltac:(lia) ltac:(lia)) as (H1 & H2 & H3).
  - intros i Hi. rewrite (Hnone i Hi). reflexivity.
  - split; [exact H1|]. split; [exact H2|exact H3].
Qed.

End CacheCounts.

(** ** Where the slot files are *)

Lemma rfind_absent (c : ascii) (s : string) :
  Py.contains c s = false -> Py.rfind c s = (-1)%Z.
Proof.
  induction s as [|a s IH]; cbn; [reflexivity|].
  intros H. apply orb_false_elim in H as [Ha Hs]. rewrite (IH Hs), Ha. reflexivity.
Qed.

Lemma rfind_ge (c : ascii) (s : string) : (-1 <= Py.rfind c s)%Z.
Proof.
  induction s as [|a s IH]; cbn; [lia|].
  destruct (Z.leb_spec 0 (Py.rfind c s)); [lia|]. destruct (Ascii.eqb a c); lia.
Qed.

Lemma rfind_last (c : ascii) (s t : string) :
  Py.contains c t = false ->
  Py.rfind c (s +:+ String c t) = Z.of_nat (String.length s).
Proof.
  intros Ht. induction s as [|a s IH].
  - change ("" +:+ String c t) with (String c t). cbn.
    rewrite (rfind_absent _ _ Ht), Ascii.eqb_refl. reflexivity.
  - rewrite append_cons. cbn [Py.rfind String.length]. rewrite IH.
    destruct (Z.leb_spec 0 (Z.of_nat (String.length s))); lia.
Qed.

Lemma contains_append (c : ascii) (s t : string) :
  Py.contains c (s +:+ t) = Py.contains c s || Py.contains c t.
Proof.
  induction s as [|a s IH]; [reflexivity|].
  rewrite append_cons. cbn [Py.contains]. rewrite IH. now rewrite orb_assoc.
Qed.

Lemma take_append (s t : string) : Py.take (String.length s) (s +:+ t) = s.
Proof.
  induction s as [|a s IH]; [now destruct t|].
  rewrite append_cons. cbn. now rewrite IH.
Qed.

Lemma drop_append (s t : string) : Py.drop (String.length s) (s +:+ t) = t.
Proof. induction s as [|a s IH]; [reflexivity|]. rewrite append_cons. exact IH. Qed.

Lemma all_char_append (c : ascii) (s t : string) :
  Py.all_char c (s +:+ t) = Py.all_char c s && Py.all_char c t.
Proof.
  induction s as [|a s IH]; [reflexivity|].
  rewrite append_cons. cbn [Py.all_char]. rewrite IH. now rewrite andb_assoc.
Qed.

Lemma endswith_all_char (c : ascii) (s : string) :
  s <> "" -> Py.endswith c s = false -> Py.all_char c s = false.
Proof.
  induction s as [|a s IH]; [congruence|]. intros _ H.
  cbn [Py.all_char]. destruct s as [|b s].
  - cbn in H. now rewrite H.
  - rewrite IH; [apply andb_false_r|discriminate|exact H].
Qed.

Lemma rstrip_id (c : ascii) (s : string) :
  s <> "" -> Py.endswith c s = false -> Py.rstrip c s = s.
Proof.
  induction s as [|a s IH]; [congruence|]. intros _ H.
  cbn [Py.rstrip]. destruct s as [|b s].
  - cbn in *. now rewrite H.
  - rewrite IH; [reflexivity|discriminate|exact H].
Qed.

Lemma rstrip_snoc (c : ascii) (s : string) :
  Py.rstrip c (s +:+ String c "") = Py.rstrip c s.
Proof.
  induction s as [|a s IH].
  - change ("" +:+ String c "") with (String c ""). cbn.
    now rewrite Ascii.eqb_refl.
  - rewrite append_cons. cbn [Py.rstrip]. now rewrite IH.
Qed.

Lemma contains_all_char (c : ascii) (s : string) :
  s <> "" -> Py.contains c s = false -> Py.all_char c s = false.
Proof.
  destruct s as [|a s]; [congruence|]. intros _ H. cbn in *.
  apply orb_false_elim in H as [-> _]. reflexivity.
Qed.

Lemma os_path_split_file (dir name : string) :
  dir <> "" -> Py.endswith Py.sep dir = false ->
  Py.contains Py.sep name = false ->
  Py.os_path_split (dir +:+ String Py.sep name) = (dir, name).
Proof.
  intros Hdir Hend Hname. unfold Py.os_path_split.
  rewrite (rfind_last _ _ _ Hname).
  replace (Z.to_nat (Z.of_nat (String.length dir) + 1))
    with (String.length (dir +:+ String Py.sep "")).
  2: { rewrite length_append. cbn [String.length]. lia. }
  replace (dir +:+ String Py.sep name) with ((dir +:+ String Py.sep "") +:+ name)
    by (now rewrite append_assoc).
  rewrite take_append, drop_append.
  assert (Hne : String.eqb (dir +:+ String Py.sep "") "" = false).
  { destruct dir; [congruence|reflexivity]. }
  rewrite Hne, all_char_append, (endswith_all_char _ _ Hdir Hend). cbn [negb andb].
  now rewrite rstrip_snoc, (rstrip_id _ _ Hdir Hend).
Qed.

Lemma os_path_splitext_name (base ext : string) :
  base <> "" ->
  Py.contains Py.sep base = false -> Py.contains Py.extsep base = false ->
  Py.contains Py.sep ext = false -> Py.contains Py.extsep ext = false ->
  Py.os_path_splitext (base +:+ String Py.extsep ext) = (base, String Py.extsep ext).
Proof.
  intros Hne Hsb Hdb Hse Hde. unfold Py.os_path_splitext.
  assert (Hsep : Py.contains Py.sep (base +:+ String Py.extsep ext) = false).
  { rewrite contains_append, Hsb. cbn. exact Hse. }
  rewrite (rfind_absent _ _ Hsep), (rfind_last _ _ _ Hde).
  destruct (Z.ltb_spec (-1) (Z.of_nat (String.length base))); [|lia].
  replace (Z.to_nat (-1 + 1)) with 0 by lia. cbn [Py.drop].
  replace (Z.to_nat (Z.of_nat (String.length base) - (-1 + 1)))
    with (String.length base) by lia.
  rewrite Nat2Z.id, take_append, drop_append.
  now rewrite (contains_all_char _ _ Hne Hdb).
Qed.

(** X6. For a file [dir/base.ext] (a directory that is not empty and does
    not end in a slash, a name with one dot) and a prefix that does not
    make the name absolute, slot [i] is the file
    [dir/<prefix><base>_<i>.npy], next to the input. The extension plays no
    part: two inputs of one directory that differ in their extension only
    share their slots. *)
Theorem npy_path_next_to_input {artifact : Type} (self : @CacheNPY.t artifact)
    (dir base ext : string) (i : nat) :
  dir <> "" -> Py.endswith Py.sep dir = false ->
  base <> "" ->
  Py.contains Py.sep base = false -> Py.contains Py.extsep base = false ->
  Py.contains Py.sep ext = false -> Py.contains Py.extsep ext = false ->
  Py.startswith Py.sep (CacheNPY.prefix self +:+ base) = false ->
  CacheNPY.npy_path self (dir +:+ "/" +:+ base +:+ "." +:+ ext) i
  = dir +:+ "/" +:+ CacheNPY.prefix self +:+ base +:+ "_" +:+ pretty i +:+ ".npy"
  /\ forall ext',
       Py.contains Py.sep ext' = false -> Py.contains Py.extsep ext' = false ->
       CacheNPY.npy_path self (dir +:+ "/" +:+ base +:+ "." +:+ ext') i
       = CacheNPY.npy_path self (dir +:+ "/" +:+ base +:+ "." +:+ ext) i.
Proof.
  intros Hdir Hend Hbase Hsb Hdb Hse Hde Hstart.
  assert (Hform : forall e,
            Py.contains Py.sep e = false -> Py.contains Py.extsep e = false ->
            CacheNPY.npy_path self (dir +:+ "/" +:+ base +:+ "." +:+ e) i
            = dir +:+ "/" +:+ CacheNPY.prefix self +:+ base +:+ "_"
                  +:+ pretty i +:+ ".npy").
  { intros e Hs He. unfold CacheNPY.npy_path.
    change (dir +:+ "/" +:+ base +:+ "." +:+ e)
      with (dir +:+ String Py.sep (base +:+ String Py.extsep e)).
    rewrite os_path_split_file; [|exact Hdir|exact Hend|].
    2: { rewrite contains_append, Hsb. cbn. exact Hs. }
    rewrite (os_path_splitext_name _ _ Hbase Hsb Hdb Hs He).
    unfold Py.os_path_join.
    replace (CacheNPY.prefix self +:+ base +:+ "_" +:+ pretty i +:+ ".npy")
      with ((CacheNPY.prefix self +:+ base) +:+ "_" +:+ pretty i +:+ ".npy")
      by (now rewrite append_assoc).
    rewrite startswith_append, Hstart.
    2: { intros H. apply (f_equal String.length) in H. rewrite length_append in H.
         destruct base; [congruence|]. cbn [String.length] in H. lia. }
    assert (Hd : String.eqb dir "" = false) by (destruct dir; [congruence|reflexivity]).
    rewrite Hd, Hend. cbn [orb]. now rewrite append_assoc. }
  split; [apply Hform; assumption|].
  intros ext' Hs' He'. rewrite (Hform ext' Hs' He'). symmetry. now apply Hform.
Qed.

(** ** Numbers and tokens as text *)

Lemma append_nil_r (s : string) : s +:+ "" = s.
Proof. induction s as [|c s IH]; [reflexivity|]. rewrite append_cons. now rewrite IH. Qed.

Lemma none_of_append (P : ascii -> bool) (s t : string) :
  none_of P (s +:+ t) = none_of P s && none_of P t.
Proof.
  induction s as [|c s IH]; [reflexivity|].
  rewrite append_cons. cbn [none_of]. rewrite IH. now rewrite andb_assoc.
Qed.

Lemma none_of_weaken (P Q : ascii -> bool) (s : string) :
  (forall c, Q c = true -> P c = true) ->
  none_of P s = true -> none_of Q s = true.
Proof.
  intros HPQ. induction s as [|c s IH]; [reflexivity|]. cbn [none_of].
  intros H. apply andb_prop in H as [Hc Hs]. rewrite (IH Hs), andb_true_r.
  destruct (Q c) eqn:HQ; [|reflexivity]. rewrite (HPQ c HQ) in Hc. discriminate.
Qed.

Lemma none_of_contains (c : ascii) (s : string) :
  none_of (fun a => Ascii.eqb a c) s = negb (Py.contains c s).
Proof.
  induction s as [|a s IH]; [reflexivity|]. cbn [none_of Py.contains].
  rewrite IH. now rewrite negb_orb.
Qed.

Lemma digit_not_space (c : ascii) : PyStr.isspace c = true -> nondigit c = true.
Proof.
  unfold PyStr.isspace, nondigit, PyStr.isdigit.
  destruct (Nat.leb_spec 48 (nat_of_ascii c)), (Nat.leb_spec (nat_of_ascii c) 57),
    (Nat.leb_spec 9 (nat_of_ascii c)), (Nat.leb_spec (nat_of_ascii c) 13),
    (Nat.leb_spec 28 (nat_of_ascii c)), (Nat.leb_spec (nat_of_ascii c) 32),
    (Nat.eqb_spec (nat_of_ascii c) 133), (Nat.eqb_spec (nat_of_ascii c) 160);
    cbn; intros; try reflexivity; try discriminate; lia.
Qed.

Lemma digit_not_char (c d : ascii) :
  PyStr.isdigit d = false -> Ascii.eqb c d = true -> nondigit c = true.
Proof. intros Hd Heq. apply Ascii.eqb_eq in Heq. subst c. unfold nondigit. now rewrite Hd. Qed.

Lemma pretty_N_char_digit (r : N) :
  (r < 10)%N ->
  PyStr.isdigit (pretty_N_char r) = true
  /\ PyStr.digit_value (pretty_N_char r) = Z.of_N r.
Proof.
  intros Hr.
  assert (r = 0 \/ r = 1 \/ r = 2 \/ r = 3 \/ r = 4 \/ r = 5 \/ r = 6 \/ r = 7
          \/ r = 8 \/ r = 9)%N as H by lia.
  repeat (destruct H as [->|H]; [split; reflexivity|]). subst r. split; reflexivity.
Qed.

(** The digits [pretty_N_go] puts in front of its accumulator. *)
Lemma pretty_N_go_digits (x : N) (s : string) :
  exists t,
    pretty_N_go x s = t +:+ s /\ none_of nondigit t = true
    /\ ((0 < x)%N -> t <> "")
    /\ forall acc, PyStr.digits acc (t +:+ s)
                   = PyStr.digits (acc * 10 ^ Z.of_nat (String.length t) + Z.of_N x) s.
Proof.
  revert s. induction (N.lt_wf_0 x) as [x _ IH]. intros s.
  destruct (N.eq_dec x 0) as [->|Hx].
  - exists "". rewrite pretty_N_go_0. repeat split; [lia|].
    intros acc. cbn. f_equal. lia.
  - rewrite pretty_N_go_step by lia.
    destruct (pretty_N_char_digit (x mod 10)) as [Hd Hv];
      [apply N.mod_lt; lia|].
    destruct (IH (x / 10)%N ltac:(apply N.div_lt; lia)
                 (String (pretty_N_char (x mod 10)) s))
      as (t & Ht & Hdig & _ & Hval).
    exists (t +:+ String (pretty_N_char (x mod 10)) "").
    rewrite append_assoc. change (String (pretty_N_char (x mod 10)) "" +:+ s)
      with (String (pretty_N_char (x mod 10)) s).
    split; [exact Ht|]. split.
    { rewrite none_of_append, Hdig. cbn. unfold nondigit. now rewrite Hd. }
    split.
    { intros _ H. apply (f_equal String.length) in H. rewrite length_append in H.
      cbn in H. lia. }
    intros acc. rewrite Hval. cbn [PyStr.digits]. rewrite Hd, Hv. f_equal.
    rewrite length_append. cbn [String.length].
    rewrite Nat2Z.inj_add, Z.pow_add_r by lia. change (10 ^ Z.of_nat 1)%Z with 10%Z.
    pose proof (N.div_mod x 10 ltac:(lia)) as Hdm.
    apply (f_equal Z.of_N) in Hdm. rewrite N2Z.inj_add, N2Z.inj_mul in Hdm.
    change (Z.of_N 10) with 10%Z in Hdm. lia.
Qed.

Lemma pretty_N_spec (x : N) :
  pretty x <> "" /\ none_of nondigit (pretty x) = true
  /\ PyStr.digits 0 (pretty x) = Some (Z.of_N x).
Proof.
  unfold pretty, pretty_N. destruct (decide (x = 0%N)) as [->|Hx].
  - repeat split. discriminate.
  - destruct (pretty_N_go_digits x "") as (t & Ht & Hdig & Hne & Hval).
    rewrite Ht, append_nil_r. split; [apply Hne; lia|]. split; [exact Hdig|].
    rewrite <- (append_nil_r t) at 1. rewrite Hval. cbn. f_equal.
Qed.

Lemma strip_token (s : string) :
  s <> "" -> none_of PyStr.isspace s = true -> PyStr.strip s = s.
Proof.
  intros Hne Hs. unfold PyStr.strip.
  assert (Hl : PyStr.lstrip s = s).
  { destruct s as [|c s]; [reflexivity|]. cbn in *.
    apply andb_prop in Hs as [Hc _]. apply negb_true_iff in Hc. now rewrite Hc. }
  rewrite Hl. clear Hl Hne. induction s as [|c s IH]; [reflexivity|].
  cbn [none_of] in Hs. apply andb_prop in Hs as [Hc Hs]. apply negb_true_iff in Hc.
  cbn [PyStr.rstrip]. rewrite (IH Hs). destruct s; [now rewrite Hc|reflexivity].
Qed.

Lemma digits_token (s : string) :
  none_of nondigit s = true -> none_of PyStr.isspace s = true.
Proof. apply none_of_weaken. apply digit_not_space. Qed.

Lemma unsigned_digits (s : string) :
  s <> "" -> none_of nondigit s = true ->
  PyStr.unsigned s = PyStr.digits 0 s.
Proof.
  destruct s as [|c s]; [congruence|]. intros _ H. cbn in *.
  apply andb_prop in H as [Hc _]. unfold nondigit in Hc.
  apply negb_true_iff, negb_false_iff in Hc. rewrite Hc. reflexivity.
Qed.

Lemma int_of_digits (s : string) (z : Z) :
  s <> "" -> none_of nondigit s = true -> PyStr.digits 0 s = Some z ->
  PyStr.int s = Return z.
Proof.
  intros Hne Hdig Hval. unfold PyStr.int.
  rewrite (strip_token _ Hne (digits_token _ Hdig)).
  pose proof (unsigned_digits _ Hne Hdig) as Hu.
  destruct s as [|c s]; [congruence|].
  cbn [none_of] in Hdig. apply andb_prop in Hdig as [Hc _].
  destruct (Ascii.eqb c "+") eqn:Hplus.
  { rewrite (digit_not_char c "+" eq_refl Hplus) in Hc. discriminate. }
  destruct (Ascii.eqb c "-") eqn:Hminus.
  { rewrite (digit_not_char c "-" eq_refl Hminus) in Hc. discriminate. }
  now rewrite Hu, Hval.
Qed.

(** [int(str(n))] is [n], for a natural number. *)
Lemma int_pretty_nat (n : nat) : PyStr.int (pretty n) = Return (Z.of_nat n).
Proof.
  unfold pretty, pretty_nat.
  destruct (pretty_N_spec (N.of_nat n)) as (Hne & Hdig & Hval).
  rewrite (int_of_digits _ _ Hne Hdig Hval). f_equal. lia.
Qed.

Lemma pretty_nat_token (n : nat) :
  pretty n <> "" /\ none_of nondigit (pretty n) = true.
Proof.
  unfold pretty, pretty_nat.
  destruct (pretty_N_spec (N.of_nat n)) as (Hne & Hdig & _). now split.
Qed.

Lemma str_succ (n : nat) : PyStr.str (Z.of_nat n + 1) = pretty (S n).
Proof.
  unfold PyStr.str. replace (Z.of_nat n + 1)%Z with (Z.pos (Pos.of_succ_nat n)) by lia.
  unfold pretty at 1, pretty_Z. unfold pretty at 2, pretty_nat.
  unfold pretty at 1, pretty_positive. f_equal; lia.
Qed.

(** ** Lines and tokens *)

Lemma split_ws_space (c : ascii) (s : string) :
  PyStr.isspace c = true -> PyStr.split_ws (String c s) = PyStr.split_ws s.
Proof. intros H. cbn [PyStr.split_ws]. now rewrite H. Qed.

Lemma split_ws_token (t : string) :
  t <> "" -> none_of PyStr.isspace t = true -> PyStr.split_ws t = [t].
Proof.
  induction t as [|a t IH]; [congruence|]. intros _ H.
  cbn [none_of] in H. apply andb_prop in H as [Ha Ht]. apply negb_true_iff in Ha.
  cbn [PyStr.split_ws]. rewrite Ha. destruct t as [|b t]; [reflexivity|].
  pose proof Ht as Hb. cbn [none_of] in Hb. apply andb_prop in Hb as [Hb _].
  apply negb_true_iff in Hb. rewrite Hb. now rewrite IH.
Qed.

Lemma split_ws_cons (t : string) (c : ascii) (s : string) :
  t <> "" -> none_of PyStr.isspace t = true -> PyStr.isspace c = true ->
  PyStr.split_ws (t +:+ String c s) = t :: PyStr.split_ws s.
Proof.
  intros Hne Ht Hc. induction t as [|a t IH]; [congruence|].
  cbn [none_of] in Ht. apply andb_prop in Ht as [Ha Ht]. apply negb_true_iff in Ha.
  destruct t as [|b t].
  - change (String a "" +:+ String c s) with (String a (String c s)).
    cbn [PyStr.split_ws]. now rewrite Ha, Hc.
  - pose proof Ht as Hb. cbn [none_of] in Hb.
    apply andb_prop in Hb as [Hb _]. apply negb_true_iff in Hb.
    specialize (IH ltac:(discriminate) Ht).
    rewrite append_cons. rewrite append_cons in IH |- *.
    cbn [PyStr.split_ws] in IH |- *. rewrite Ha, Hb. rewrite Hb in IH.
    now rewrite IH.
Qed.

Lemma split_ws_join (ts : list string) :
  Forall (fun t => t <> "" /\ none_of PyStr.isspace t = true) ts ->
  PyStr.split_ws (PyStr.join " " ts) = ts.
Proof.
  induction 1 as [|t ts [Hne Ht] Hts IH]; [reflexivity|].
  destruct ts as [|u ts].
  - cbn [PyStr.join]. now apply split_ws_token.
  - change (PyStr.join " " (t :: u :: ts))
      with (t +:+ String " " (PyStr.join " " (u :: ts))).
    rewrite split_ws_cons by (try assumption; reflexivity). now rewrite IH.
Qed.

Lemma contains_join (c : ascii) (sep : string) (ts : list string) :
  Py.contains c sep = false ->
  Forall (fun t => Py.contains c t = false) ts ->
  Py.contains c (PyStr.join sep ts) = false.
Proof.
  intros Hsep. induction 1 as [|t ts Ht Hts IH]; [reflexivity|].
  destruct ts as [|u ts]; [exact Ht|].
  change (PyStr.join sep (t :: u :: ts)) with (t +:+ sep +:+ PyStr.join sep (u :: ts)).
  now rewrite !contains_append, Ht, Hsep, IH.
Qed.

Lemma digits_no_char (c : ascii) (s : string) :
  PyStr.isdigit c = false -> none_of nondigit s = true -> Py.contains c s = false.
Proof.
  intros Hc Hs. apply negb_true_iff. rewrite <- none_of_contains.
  revert Hs. apply none_of_weaken. intros a Ha. now apply (digit_not_char a c).
Qed.

Lemma pretty_tokens (l : list nat) :
  Forall (fun t => t <> "" /\ none_of PyStr.isspace t = true) (map pretty l).
Proof.
  apply Forall_fmap, Forall_forall. intros n _. cbn.
  destruct (pretty_nat_token n) as [Hne Hdig]. split; [exact Hne|].
  now apply digits_token.
Qed.

Lemma pretty_no_newline (l : list nat) :
  Forall (fun t => Py.contains PyStr.LF t = false) (map pretty l).
Proof.
  apply Forall_fmap, Forall_forall. intros n _. cbn.
  apply digits_no_char; [reflexivity|]. apply pretty_nat_token.
Qed.

(** Splitting the joined lines gives the lines back. *)
Lemma split_join_lines (ls : list string) :
  ls <> [] ->
  Forall (fun l => Py.contains PyStr.LF l = false) ls ->
  Py.split PyStr.LF (PyStr.join PyStr.nl ls) = ls.
Proof.
  intros Hne H. induction H as [|l ls Hl Hls IH]; [congruence|].
  destruct ls as [|k ls].
  - cbn [PyStr.join]. now apply split_no_sep.
  - change (PyStr.join PyStr.nl (l :: k :: ls))
      with (l +:+ String PyStr.LF (PyStr.join PyStr.nl (k :: ls))).
    rewrite split_append, (split_no_sep _ _ Hl), IH by discriminate. reflexivity.
Qed.

Lemma getitem_head {A} (x : A) (l : list A) : Py.getitem (x :: l) 0 = Return x.
Proof.
  unfold Py.getitem. cbn [length]. change (0 <? 0)%Z with false. cbv iota.
  destruct (Z.leb_spec (Z.of_nat (S (length l))) 0); [lia|]. reflexivity.
Qed.

Lemma getitem_second {A} (x y : A) (l : list A) : Py.getitem (x :: y :: l) 1 = Return y.
Proof.
  unfold Py.getitem. cbn [length]. change (1 <? 0)%Z with false. cbv iota.
  destruct (Z.leb_spec (Z.of_nat (S (S (length l)))) 1); [lia|]. reflexivity.
Qed.

(** A slice between two bounds that are not negative. *)
Lemma slice_nat {A} (l : list A) (a b : nat) :
  PyStr.slice l (Z.of_nat a) (Z.of_nat b) = take (b - a) (drop a l).
Proof.
  unfold PyStr.slice, PyStr.clip.
  destruct (Z.ltb_spec (Z.of_nat a) 0); [lia|].
  destruct (Z.ltb_spec (Z.of_nat b) 0); [lia|].
  set (n := length l).
  replace (Z.to_nat (Z.min (Z.of_nat n) (Z.of_nat a))) with (Nat.min n a) by lia.
  replace (Z.to_nat (Z.min (Z.of_nat n) (Z.of_nat b))) with (Nat.min n b) by lia.
  destruct (Nat.le_ge_cases n a) as [Hna|Han].
  - rewrite (Nat.min_l n a Hna).
    rewrite !drop_ge by (unfold n in *; lia). now rewrite !take_nil.
  - rewrite (Nat.min_r n a Han).
    destruct (Nat.le_ge_cases n b) as [Hnb|Hbn].
    + rewrite (Nat.min_l n b Hnb).
      rewrite !take_ge; [reflexivity| |]; rewrite length_drop; unfold n in *; lia.
    + now rewrite (Nat.min_r n b Hbn).
Qed.

Lemma fold_vertices (vs : list string) (r : string) :
  fold_left (fun result v => result +:+ "v " +:+ v +:+ PyStr.nl) vs r
  = r +:+ foldr (fun v rest => "v " +:+ v +:+ PyStr.nl +:+ rest) "" vs.
Proof.
  revert r. induction vs as [|v vs IH]; intros r; cbn [fold_left foldr].
  - now rewrite append_nil_r.
  - rewrite IH. now rewrite !append_assoc.
Qed.

Lemma face_line_pretty (f : list nat) :
  Off.face_line (map pretty f)
  = Return ("f " +:+ PyStr.join " " (map (fun i => pretty (S i)) f) +:+ PyStr.nl).
Proof.
  unfold Off.face_line.
  assert (H : PyStr.traverse
                (fun x => Off.and_then (PyStr.int x)
                            (fun z => Return (PyStr.str (z + 1))))
                (map pretty f)
              = Return (map (fun i => pretty (S i)) f)).
  { induction f as [|i f IH]; [reflexivity|].
    cbn [map PyStr.traverse]. rewrite int_pretty_nat. cbn [Off.and_then].
    now rewrite IH, str_succ. }
  now rewrite H.
Qed.

Lemma off_face_indices (f : list nat) :
  drop 1 (PyStr.split_ws (off_face f)) = map pretty f.
Proof.
  unfold off_face.
  rewrite (split_ws_join (pretty (length f) :: map pretty f))
    by (apply (pretty_tokens (length f :: f))).
  reflexivity.
Qed.

Lemma fold_faces (fs : list (list nat)) (r : string) :
  fold_left (fun result f =>
               Off.and_then result (fun result =>
               Off.and_then (Off.face_line f) (fun line => Return (result +:+ line))))
            (map (fun x => drop 1 (PyStr.split_ws x)) (map off_face fs)) (Return r)
  = Return (r +:+ foldr (fun f rest =>
                           "f " +:+ PyStr.join " " (map (fun i => pretty (S i)) f)
                                +:+ PyStr.nl +:+ rest) "" fs).
Proof.
  revert r. induction fs as [|f fs IH]; intros r; cbn [map fold_left foldr].
  - now rewrite append_nil_r.
  - rewrite off_face_indices. cbn [Off.and_then].
    rewrite face_line_pretty. cbn [Off.and_then].
    rewrite IH. now rewrite !append_assoc.
Qed.

Lemma traverse_int_pretty (l : list nat) :
  PyStr.traverse PyStr.int (map pretty l) = Return (map Z.of_nat l).
Proof.
  induction l as [|n l IH]; [reflexivity|].
  cbn [map PyStr.traverse]. now rewrite int_pretty_nat, IH.
Qed.

Lemma off_counts_numbers (n m edges : nat) :
  PyStr.traverse PyStr.int (PyStr.split_ws (off_counts n m edges))
  = Return [Z.of_nat n; Z.of_nat m; Z.of_nat edges].
Proof.
  change (off_counts n m edges) with (PyStr.join " " (map pretty [n; m; edges])).
  rewrite split_ws_join by apply pretty_tokens. apply traverse_int_pretty.
Qed.

Lemma off_counts_line (n m edges : nat) :
  Py.contains PyStr.LF (off_counts n m edges) = false.
Proof.
  change (off_counts n m edges) with (PyStr.join " " (map pretty [n; m; edges])).
  apply contains_join; [reflexivity|apply pretty_no_newline].
Qed.

Lemma off_face_line (f : list nat) : Py.contains PyStr.LF (off_face f) = false.
Proof.
  unfold off_face. apply contains_join; [reflexivity|].
  apply (pretty_no_newline (length f :: f)).
Qed.

(** ** The conversion of an OFF text *)

(** With the header and the counts in place, the conversion takes the
    declared numbers of lines, as far as there are any. *)
Lemma convert_lines (n m edges : nat) (ls : list string) :
  Forall (fun l => Py.contains PyStr.LF l = false) ls ->
  Off.convert (PyStr.join PyStr.nl ("OFF" :: off_counts n m edges :: ls))
  = fold_left (fun result f =>
                 Off.and_then result (fun result =>
                 Off.and_then (Off.face_line f) (fun line => Return (result +:+ line))))
              (map (fun x => drop 1 (PyStr.split_ws x)) (take m (drop n ls)))
              (Return ("o object" +:+ PyStr.nl
                       +:+ foldr (fun v rest => "v " +:+ v +:+ PyStr.nl +:+ rest) ""
                                 (take n ls))).
Proof.
  intros Hls. unfold Off.convert.
  rewrite split_join_lines; [|discriminate|].
  2: { constructor; [reflexivity|]. constructor; [apply off_counts_line|exact Hls]. }
  rewrite getitem_head. cbn [Off.and_then]. change (String.eqb "OFF" "OFF") with true.
  cbn [negb]. rewrite getitem_second. cbn [Off.and_then].
  rewrite off_counts_numbers. cbn [Off.and_then].
  replace (2 + Z.of_nat n + Z.of_nat m)%Z with (Z.of_nat (2 + n + m)) by lia.
  replace (2 + Z.of_nat n)%Z with (Z.of_nat (2 + n)) by lia.
  change 2%Z with (Z.of_nat 2). rewrite !slice_nat.
  replace (2 + n - 2) with n by lia. replace (2 + n + m - (2 + n)) with m by lia.
  change (drop 2 ("OFF" :: off_counts n m edges :: ls)) with ls.
  change (drop (2 + n) ("OFF" :: off_counts n m edges :: ls)) with (drop n ls).
  now rewrite fold_vertices.
Qed.

Lemma convert_well_formed (vertices : list string) (faces : list (list nat))
    (edges : nat) (trailer : list string) :
  Forall (fun l => Py.contains PyStr.LF l = false) vertices ->
  Forall (fun l => Py.contains PyStr.LF l = false) trailer ->
  Off.convert (off_text vertices faces edges trailer)
  = Return (obj_text vertices faces).
Proof.
  intros Hvs Htr. unfold off_text. rewrite convert_lines.
  - rewrite take_app_length.
    rewrite drop_app_length.
    rewrite <- (length_map off_face faces) at 1. rewrite take_app_length.
    rewrite fold_faces. unfold obj_text. now rewrite !append_assoc.
  - apply Forall_app. split; [exact Hvs|]. apply Forall_app. split; [|exact Htr].
    apply Forall_fmap, Forall_forall. intros f _. apply off_face_line.
Qed.

(** X7. An OFF text with the header [OFF], the three counts, as many vertex
    lines and face lines as the counts say, and anything after them,
    converts to the OBJ text with the same vertex lines, copied as they
    are, and the same faces, their leading count dropped and every index
    one higher. *)
Theorem off_converts_to_obj (vertices : list string) (faces : list (list nat))
    (edges : nat) (trailer : list string) :
  Forall (fun l => Py.contains PyStr.LF l = false) vertices ->
  Forall (fun l => Py.contains PyStr.LF l = false) trailer ->
  Off.convert (off_text vertices faces edges trailer)
  = Return (obj_text vertices faces).
Proof. apply convert_well_formed. Qed.

(** X8. The counts of an OFF text are upper bounds only: a text that ends
    before the declared number of vertex lines, or of face lines, is
    converted without an error, to the lines that are there. *)
Theorem off_short_file_accepted (vertices : list string) (faces : list (list nat))
    (n m edges : nat) :
  Forall (fun l => Py.contains PyStr.LF l = false) vertices ->
  (length vertices <= n ->
   Off.convert (PyStr.join PyStr.nl ("OFF" :: off_counts n m edges :: vertices))
   = Return (obj_text vertices []))
  /\ (length faces <= m ->
      Off.convert (PyStr.join PyStr.nl
                     ("OFF" :: off_counts (length vertices) m edges
                        :: vertices ++ map off_face faces))
      = Return (obj_text vertices faces)).
Proof.
  intros Hvs. split.
  - intros Hn. rewrite (convert_lines _ _ _ _ Hvs).
    rewrite drop_ge by exact Hn. rewrite take_nil.
    rewrite take_ge by exact Hn. cbn [map fold_left]. unfold obj_text. cbn [foldr].
    now rewrite !append_nil_r.
  - intros Hm. rewrite convert_lines.
    + rewrite take_app_length, drop_app_length.
      rewrite take_ge by (rewrite length_map; exact Hm).
      rewrite fold_faces. unfold obj_text. now rewrite !append_assoc.
    + apply Forall_app. split; [exact Hvs|].
      apply Forall_fmap, Forall_forall. intros f _. apply off_face_line.
Qed.

Lemma traverse_int_raises (l : list string) (e : exn) :
  PyStr.traverse PyStr.int l = Raise e -> e = ValueError.
Proof.
  induction l as [|x l IH]; cbn [PyStr.traverse]; [discriminate|].
  destruct (PyStr.int x) as [z|e'] eqn:Hx.
  - destruct (PyStr.traverse PyStr.int l) as [zs|e'']; [discriminate|].
    intros H. injection H as <-. now apply IH.
  - intros H. injection H as <-. unfold PyStr.int in Hx.
    destruct (match PyStr.strip x with "" => None | String c r => _ end);
      [discriminate|]. now injection Hx.
Qed.

(** X9. What the conversion rejects. A text whose first line is not exactly
    [OFF] (the counts on the header line, say) fails the assertion; the
    header alone, with no second line, raises [IndexError]; and a second
    line that is not exactly three integers raises [ValueError]. *)
Theorem off_rejected (first counts tail : string) :
  Py.contains PyStr.LF first = false ->
  Py.contains PyStr.LF counts = false ->
  (first <> "OFF" ->
   Off.convert first = Raise (OtherError "AssertionError")
   /\ Off.convert (first +:+ PyStr.nl +:+ tail) = Raise (OtherError "AssertionError"))
  /\ Off.convert "OFF" = Raise IndexError
  /\ ((forall a b c, PyStr.traverse PyStr.int (PyStr.split_ws counts) <> Return [a; b; c]) ->
      Off.convert ("OFF" +:+ PyStr.nl +:+ counts) = Raise ValueError
      /\ Off.convert ("OFF" +:+ PyStr.nl +:+ counts +:+ PyStr.nl +:+ tail)
         = Raise ValueError).
Proof.
  intros Hfirst Hcounts. split; [|split; [reflexivity|]].
  - intros Hne.
    assert (Heqb : String.eqb first "OFF" = false) by (now apply String.eqb_neq).
    split.
    + unfold Off.convert. rewrite (split_no_sep _ _ Hfirst), getitem_head.
      cbn [Off.and_then]. now rewrite Heqb.
    + unfold Off.convert.
      change (first +:+ PyStr.nl +:+ tail) with (first +:+ String PyStr.LF tail).
      rewrite split_append, (split_no_sep _ _ Hfirst). cbn [app].
      rewrite getitem_head. cbn [Off.and_then]. now rewrite Heqb.
  - intros Hbad.
    assert (Hnum : forall rest : list string,
              Off.and_then (PyStr.traverse PyStr.int (PyStr.split_ws counts))
                (fun numbers =>
                   match numbers with
                   | [n; m; _] =>
                       let vertices := PyStr.slice ("OFF" :: counts :: rest) 2 (2 + n) in
                       let faces :=
                         map (fun x => drop 1 (PyStr.split_ws x))
                           (PyStr.slice ("OFF" :: counts :: rest) (2 + n) (2 + n + m)) in
                       let result := "o object" +:+ PyStr.nl in
                       let result :=
                         fold_left (fun result v => result +:+ "v " +:+ v +:+ PyStr.nl)
                           vertices result in
                       fold_left
                         (fun result f =>
                            Off.and_then result (fun result =>
                            Off.and_then (Off.face_line f)
                              (fun line => Return (result +:+ line))))
                         faces (Return result)
                   | _ => Raise ValueError
                   end) = Raise ValueError).
    { intros rest.
      destruct (PyStr.traverse PyStr.int (PyStr.split_ws counts)) as [nums|e] eqn:Ht.
      - cbn [Off.and_then].
        destruct nums as [|a [|b [|c [|d nums]]]]; try reflexivity.
        exfalso. apply (Hbad a b c). reflexivity.
      - cbn [Off.and_then]. now rewrite (traverse_int_raises _ _ Ht). }
    split.
    + unfold Off.convert.
      change ("OFF" +:+ PyStr.nl +:+ counts) with ("OFF" +:+ String PyStr.LF counts).
      rewrite split_append, (split_no_sep _ _ Hcounts).
      change (Py.split PyStr.LF "OFF") with ["OFF"]. cbn [app].
      rewrite getitem_head. cbn [Off.and_then].
      change (String.eqb "OFF" "OFF") with true. cbn [negb].
      rewrite getitem_second. cbn [Off.and_then]. apply (Hnum []).
    + unfold Off.convert.
      change ("OFF" +:+ PyStr.nl +:+ counts +:+ PyStr.nl +:+ tail)
        with ("OFF" +:+ String PyStr.LF (counts +:+ String PyStr.LF tail)).
      rewrite !split_append, (split_no_sep _ _ Hcounts).
      change (Py.split PyStr.LF "OFF") with ["OFF"]. cbn [app].
      rewrite getitem_head. cbn [Off.and_then].
      change (String.eqb "OFF" "OFF") with true. cbn [negb].
      rewrite getitem_second. cbn [Off.and_then]. apply (Hnum (Py.split PyStr.LF tail)).
Qed.

(** ** Fetching the archive *)

Lemma split_components (c : ascii) (s : string) :
  Forall (fun t => Py.contains c t = false) (Py.split c s).
Proof.
  induction s as [|a s IH]; cbn [Py.split]; [repeat constructor|].
  destruct (Ascii.eqb a c) eqn:Ha; [constructor; [reflexivity|exact IH]|].
  destruct (Py.split c s) as [|w ws]; [repeat constructor; cbn; now rewrite Ha|].
  inversion IH as [|? ? Hw Hws]; subst. constructor; [|exact Hws].
  cbn. now rewrite Ha, Hw.
Qed.

Lemma last_component (url : string) :
  exists filename,
    Py.getitem (Py.split Py.sep url) (-1) = Return filename
    /\ Py.contains Py.sep filename = false.
Proof.
  pose proof (split_nonempty Py.sep url) as Hne.
  pose proof (split_components Py.sep url) as Hall.
  destruct (getitem_in_range (Py.split Py.sep url) (-1)) as (x & Hx & Hg).
  { destruct (Py.split Py.sep url); [congruence|]. cbn [length]. lia. }
  exists x. split; [exact Hg|].
  apply list_elem_of_lookup_2 in Hx. rewrite Forall_forall in Hall. now apply Hall.
Qed.

(** Joining what [split] gives restores the string. *)
Lemma join_split (c : ascii) (s : string) :
  PyStr.join (String c "") (Py.split c s) = s.
Proof.
  induction s as [|a s IH]; [reflexivity|].
  cbn [Py.split]. pose proof (split_nonempty c s) as Hne.
  destruct (Ascii.eqb_spec a c) as [->|Ha].
  - destruct (Py.split c s) as [|w ws]; [congruence|].
    change (PyStr.join (String c "") ("" :: w :: ws))
      with (String c (PyStr.join (String c "") (w :: ws))).
    now rewrite IH.
  - destruct (Py.split c s) as [|w [|z zs]]; [congruence| |].
    + cbn [PyStr.join] in *. now rewrite IH.
    + change (PyStr.join (String c "") (String a w :: z :: zs))
        with (String a (PyStr.join (String c "") (w :: z :: zs))).
      now rewrite IH.
Qed.

Lemma join_last (sep : string) (l : list string) (x : string) :
  last l = Some x -> exists before, PyStr.join sep l = before +:+ x.
Proof.
  induction l as [|y l IH]; [discriminate|]. destruct l as [|z l].
  - intros H. injection H as <-. now exists "".
  - intros H. cbn [last] in H. destruct (IH H) as [before Hb].
    exists (y +:+ sep +:+ before).
    change (PyStr.join sep (y :: z :: l)) with (y +:+ sep +:+ PyStr.join sep (z :: l)).
    rewrite Hb. now rewrite !append_assoc.
Qed.

Lemma getitem_last_suffix (c : ascii) (s x : string) :
  Py.getitem (Py.split c s) (-1) = Return x -> exists before, s = before +:+ x.
Proof.
  intros Hg. pose proof (split_nonempty c s) as Hne.
  destruct (getitem_in_range (Py.split c s) (-1)) as (y & Hy & Hg').
  { destruct (Py.split c s); [congruence|]. cbn [length]. lia. }
  rewrite Hg in Hg'. injection Hg' as <-.
  assert (Hlast : last (Py.split c s) = Some x).
  { rewrite last_lookup. rewrite <- Hy. f_equal. cbn. lia. }
  destruct (join_last (String c "") _ _ Hlast) as [before Hb].
  exists before. now rewrite <- Hb, join_split.
Qed.

Lemma for_each_chunks (path : string) (chunks : list string) (w : Bootstrap.site)
    (acc : string) :
  Bootstrap.tree w !! path = Some acc ->
  Bootstrap.for_each chunks
    (fun chunk =>
       if negb (String.eqb chunk "") then Bootstrap.write_chunk path chunk
       else Bootstrap.ret tt) w
  = (Return tt,
     Bootstrap.Site (<[path := acc +:+ foldr String.append "" chunks]> (Bootstrap.tree w))
                    (Bootstrap.console w) (Bootstrap.nrequests w)).
Proof.
  revert w acc. induction chunks as [|chunk chunks IH]; intros w acc Hacc.
  - cbn. rewrite append_nil_r, insert_id by exact Hacc. now destruct w.
  - cbn [Bootstrap.for_each foldr]. unfold Bootstrap.bind at 1.
    destruct (String.eqb_spec chunk "") as [->|Hne]; cbn [negb].
    + unfold Bootstrap.ret at 1. rewrite (IH w acc Hacc). reflexivity.
    + unfold Bootstrap.write_chunk at 1. rewrite Hacc. cbn [default].
      rewrite (IH _ (acc +:+ chunk)) by (cbn; apply lookup_insert_eq).
      cbn [Bootstrap.tree Bootstrap.console Bootstrap.nrequests].
      now rewrite insert_insert_eq, append_assoc.
Qed.

Section Download.

Variable http : nat -> string -> outcome (list string * option exn).
Variables root url : string.

(** X10. When the file named after the last component of the URL is not
    under [root] yet, [_download] makes one request and saves what the
    response streams, whatever its status: the file holds the chunks one
    after the other, and its path is returned. *)
Theorem download_saves_response (w : Bootstrap.site) (filename : string)
    (chunks : list string) :
  Py.getitem (Py.split Py.sep url) (-1) = Return filename ->
  Bootstrap.tree w !! Py.os_path_join root filename = None ->
  http (Bootstrap.nrequests w) url = Return (chunks, None) ->
  Bootstrap._download http root url w
  = (Return (Py.os_path_join root filename),
     Bootstrap.Site
       (<[Py.os_path_join root filename := foldr String.append "" chunks]>
          (Bootstrap.tree w))
       (Bootstrap.console w ++ ["Downloading " +:+ url])
       (S (Bootstrap.nrequests w))).
Proof.
  intros Hname Hnew Hget. unfold Bootstrap._download.
  unfold Bootstrap.bind at 1, Bootstrap.lift. rewrite Hname.
  unfold Bootstrap.bind at 1, Bootstrap.os_path_exists. rewrite Hnew.
  rewrite bool_decide_eq_false_2 by (intros [x Hx]; discriminate).
  unfold Bootstrap.bind at 1, Bootstrap.print.
  unfold Bootstrap.bind at 1, Bootstrap.requests_get.
  cbn [Bootstrap.tree Bootstrap.console Bootstrap.nrequests]. rewrite Hget.
  unfold Bootstrap.bind at 1, Bootstrap.open_wb.
  cbn [Bootstrap.tree Bootstrap.console Bootstrap.nrequests fst snd].
  unfold Bootstrap.bind at 1.
  rewrite (for_each_chunks _ _ _ "") by (cbn; apply lookup_insert_eq).
  cbn [Bootstrap.tree Bootstrap.console Bootstrap.nrequests].
  now rewrite insert_insert_eq.
Qed.

(** X11. [_download] takes any file at the target path for the finished
    download: it returns the path without a request and without touching
    it. So after a stream that broke off, where the exception is raised
    and the chunks received so far are left in the file, the next call
    returns the truncated file. *)
Theorem download_trusts_existing_file (w : Bootstrap.site) (filename : string) :
  Py.getitem (Py.split Py.sep url) (-1) = Return filename ->
  (is_Some (Bootstrap.tree w !! Py.os_path_join root filename) ->
   Bootstrap._download http root url w = (Return (Py.os_path_join root filename), w))
  /\ (forall chunks e,
        Bootstrap.tree w !! Py.os_path_join root filename = None ->
        http (Bootstrap.nrequests w) url = Return (chunks, Some e) ->
        let w1 := snd (Bootstrap._download http root url w) in
        fst (Bootstrap._download http root url w) = Raise e
        /\ Bootstrap.tree w1 !! Py.os_path_join root filename
           = Some (foldr String.append "" chunks)
        /\ Bootstrap._download http root url w1
           = (Return (Py.os_path_join root filename), w1)).
Proof.
  intros Hname.
  assert (Hcached : forall w0,
            is_Some (Bootstrap.tree w0 !! Py.os_path_join root filename) ->
            Bootstrap._download http root url w0
            = (Return (Py.os_path_join root filename), w0)).
  { intros w0 Hsome. unfold Bootstrap._download.
    unfold Bootstrap.bind at 1, Bootstrap.lift. rewrite Hname.
    unfold Bootstrap.bind at 1, Bootstrap.os_path_exists.
    now rewrite bool_decide_eq_true_2 by exact Hsome. }
  split; [apply Hcached|].
  intros chunks e Hnew Hget w1.
  assert (Hrun : Bootstrap._download http root url w
                 = (Raise e,
                    Bootstrap.Site
                      (<[Py.os_path_join root filename := foldr String.append "" chunks]>
                         (Bootstrap.tree w))
                      (Bootstrap.console w ++ ["Downloading " +:+ url])
                      (S (Bootstrap.nrequests w)))).
  { unfold Bootstrap._download.
    unfold Bootstrap.bind at 1, Bootstrap.lift. rewrite Hname.
    unfold Bootstrap.bind at 1, Bootstrap.os_path_exists. rewrite Hnew.
    rewrite bool_decide_eq_false_2 by (intros [x Hx]; discriminate).
    unfold Bootstrap.bind at 1, Bootstrap.print.
    unfold Bootstrap.bind at 1, Bootstrap.requests_get.
    cbn [Bootstrap.tree Bootstrap.console Bootstrap.nrequests]. rewrite Hget.
    unfold Bootstrap.bind at 1, Bootstrap.open_wb.
    cbn [Bootstrap.tree Bootstrap.console Bootstrap.nrequests fst snd].
    unfold Bootstrap.bind at 1.
    rewrite (for_each_chunks _ _ _ "") by (cbn; apply lookup_insert_eq).
    cbn [Bootstrap.tree Bootstrap.console Bootstrap.nrequests].
    now rewrite insert_insert_eq. }
  unfold w1. rewrite Hrun. cbn [fst snd Bootstrap.tree].
  split; [reflexivity|]. split; [apply lookup_insert_eq|].
  apply Hcached. cbn [Bootstrap.tree]. rewrite lookup_insert_eq. eauto.
Qed.

(** X12. Whatever the URL, the file name [_download] takes from it is its
    part after the last slash and has no slash in it, so that the target
    is [root] with the name appended (after a slash, unless [root] is empty
    or ends in one): the name never replaces [root]. *)
Theorem download_target_under_root :
  exists filename,
    Py.getitem (Py.split Py.sep url) (-1) = Return filename
    /\ Py.contains Py.sep filename = false
    /\ (exists before, url = before +:+ filename)
    /\ Py.os_path_join root filename
       = if String.eqb root "" || Py.endswith Py.sep root then root +:+ filename
         else root +:+ "/" +:+ filename.
Proof.
  destruct (last_component url) as (filename & Hget & Hfree).
  exists filename. split; [exact Hget|]. split; [exact Hfree|]. split.
  - apply (getitem_last_suffix _ _ _ Hget).
  - unfold Py.os_path_join.
    assert (Hs : Py.startswith Py.sep filename = false).
    { destruct filename as [|c f]; [reflexivity|]. cbn in *.
      now apply orb_false_elim in Hfree as [-> _]. }
    rewrite Hs. destruct (String.eqb root "" || Py.endswith Py.sep root); reflexivity.
Qed.

End Download.

(** ** Converting the files of a tree *)

Lemma startswith_straddle (x : string) :
  x <> "" ->
  PyStr.startswith ".off" x = false ->
  PyStr.startswith ".off" (x +:+ ".off") = false.
Proof.
  intros Hne H.
  destruct x as [|c1 x]; [congruence|]. rewrite append_cons.
  cbn [PyStr.startswith] in *.
  destruct (Ascii.eqb "." c1); [|reflexivity]. cbn [andb] in *.
  destruct x as [|c2 x]; [reflexivity|]. rewrite append_cons.
  cbn [PyStr.startswith] in *.
  destruct (Ascii.eqb "o" c2); [|reflexivity]. cbn [andb] in *.
  destruct x as [|c3 x]; [reflexivity|]. rewrite append_cons.
  cbn [PyStr.startswith] in *.
  destruct (Ascii.eqb "f" c3); [|reflexivity]. cbn [andb] in *.
  destruct x as [|c4 x]; [reflexivity|]. rewrite append_cons.
  cbn [PyStr.startswith] in *.
  destruct (Ascii.eqb "f" c4); [discriminate|reflexivity].
Qed.

(** A name that ends in [.off] and has no other [.off] in it gets the
    ending [.obj]. *)
Lemma replace_extension (stem : string) :
  occurs ".off" stem = false ->
  PyStr.replace ".off" ".obj" (stem +:+ ".off") = stem +:+ ".obj".
Proof.
  unfold PyStr.replace. induction stem as [|c stem IH]; [reflexivity|].
  intros H. cbn [occurs] in H. apply orb_false_elim in H as [Hstart Hrest].
  rewrite append_cons.
  change (PyStr.replace_from 0 ".off" ".obj" (String c (stem +:+ ".off")))
    with (if PyStr.startswith ".off" (String c (stem +:+ ".off"))
          then ".obj" +:+ PyStr.replace_from (String.length ".off" - 1) ".off" ".obj"
                            (stem +:+ ".off")
          else String c (PyStr.replace_from 0 ".off" ".obj" (stem +:+ ".off"))).
  rewrite <- append_cons, (startswith_straddle (String c stem)) by (discriminate || exact Hstart).
  now rewrite IH, append_cons.
Qed.

Lemma append_inj_length (s s' t t' : string) :
  String.length s = String.length s' -> s +:+ t = s' +:+ t' -> s = s' /\ t = t'.
Proof.
  revert s'. induction s as [|c s IH]; intros [|c' s'] Hlen H; try discriminate.
  - now split.
  - rewrite !append_cons in H. injection H as -> H. cbn in Hlen.
    destruct (IH s' ltac:(lia) H) as [-> ->]. now split.
Qed.

Lemma obj_not_off (s s' : string) : s +:+ ".obj" <> s' +:+ ".off".
Proof.
  intros H.
  assert (Hlen : String.length s = String.length s').
  { apply (f_equal String.length) in H. rewrite !length_append in H. cbn in H. lia. }
  destruct (append_inj_length _ _ _ _ Hlen H) as [_ Hext]. discriminate.
Qed.

Lemma with_obj_files_other (obj : string -> string) (stems : list string)
    (t : gmap string string) (p : string) :
  (forall stem, stem ∈ stems -> p <> stem +:+ ".obj") ->
  with_obj_files obj stems t !! p = t !! p.
Proof.
  revert t. induction stems as [|stem stems IH]; intros t Hp; [reflexivity|].
  change (with_obj_files obj (stem :: stems) t)
    with (with_obj_files obj stems (<[stem +:+ ".obj" := obj stem]> t)).
  rewrite IH by (intros s0 Hs0; apply Hp; now right).
  apply lookup_insert_ne. intros Heq. apply (Hp stem); [left|now symmetry].
Qed.

Lemma with_obj_files_written (obj : string -> string) (stems : list string)
    (t : gmap string string) (stem : string) :
  stem ∈ stems ->
  with_obj_files obj stems t !! (stem +:+ ".obj") = Some (obj stem).
Proof.
  revert t. induction stems as [|s0 stems IH]; intros t Hin.
  - now apply elem_of_nil in Hin.
  - change (with_obj_files obj (s0 :: stems) t)
      with (with_obj_files obj stems (<[s0 +:+ ".obj" := obj s0]> t)).
    destruct (decide (stem ∈ stems)) as [Hlater|Hnot]; [now apply IH|].
    apply elem_of_cons in Hin as [->|Hin]; [|contradiction].
    rewrite with_obj_files_other.
    + apply lookup_insert_eq.
    + intros s1 Hs1 Heq. apply append_inj_l in Heq. now subst s1.
Qed.

Section Off2Obj.

Variable glob : string -> gmap string string -> list string.
Variable obj : string -> string.

Local Abbreviation body :=
  (fun file_name =>
     Bootstrap.bind (Bootstrap.read_text file_name) (fun text =>
     Bootstrap.bind (Bootstrap.lift (Off.convert text)) (fun result =>
     Bootstrap.write_text (PyStr.replace ".off" ".obj" file_name) result))).

(** The loop over files that convert, followed by others. *)
Lemma off2obj_loop (stems : list string) (rest : list string) (w : Bootstrap.site) :
  (forall stem, stem ∈ stems ->
     occurs ".off" stem = false /\
     exists text,
       Bootstrap.tree w !! (stem +:+ ".off") = Some text /\
       Off.convert (PyStr.universal_newlines text) = Return (obj stem)) ->
  Bootstrap.for_each (map (fun stem => stem +:+ ".off") stems ++ rest) body w
  = Bootstrap.for_each rest body
      (Bootstrap.Site (with_obj_files obj stems (Bootstrap.tree w))
                      (Bootstrap.console w) (Bootstrap.nrequests w)).
Proof.
  revert w. induction stems as [|stem stems IH]; intros w Hok.
  - cbn. now destruct w.
  - destruct (Hok stem ltac:(left)) as (Hocc & text & Htext & Hconv).
    cbn [map app Bootstrap.for_each]. unfold Bootstrap.bind at 1.
    unfold Bootstrap.bind at 1, Bootstrap.read_text at 1. rewrite Htext.
    unfold Bootstrap.bind at 1, Bootstrap.lift at 1. rewrite Hconv.
    unfold Bootstrap.write_text at 1. rewrite (replace_extension _ Hocc).
    rewrite IH.
    + reflexivity.
    + intros s0 Hs0. destruct (Hok s0 ltac:(now right)) as (Hocc0 & text0 & Ht0 & Hc0).
      split; [exact Hocc0|]. exists text0. split; [|exact Hc0].
      cbn [Bootstrap.tree]. rewrite lookup_insert_ne; [exact Ht0|]. apply obj_not_off.
Qed.

(** X13. When the OFF files that [glob] finds under [root] all convert
    (their names ending in [.off], with no other [.off] in them),
    [_off2obj] writes the OBJ text of each beside it, under the same name
    ending in [.obj], and changes nothing else: the OFF files stay as they
    are. *)
Theorem off2obj_converts_every_file (root : string) (stems : list string)
    (w : Bootstrap.site) :
  glob (off_pattern root) (Bootstrap.tree w) = map (fun stem => stem +:+ ".off") stems ->
  (forall stem, stem ∈ stems ->
     occurs ".off" stem = false /\
     exists text,
       Bootstrap.tree w !! (stem +:+ ".off") = Some text /\
       Off.convert (PyStr.universal_newlines text) = Return (obj stem)) ->
  let w' := Bootstrap.Site (with_obj_files obj stems (Bootstrap.tree w))
                           (Bootstrap.console w ++ ["Convert OFF into OBJ"])
                           (Bootstrap.nrequests w) in
  Bootstrap._off2obj glob root w = (Return tt, w')
  /\ (forall stem, stem ∈ stems ->
        Bootstrap.tree w' !! (stem +:+ ".obj") = Some (obj stem)
        /\ Bootstrap.tree w' !! (stem +:+ ".off") = Bootstrap.tree w !! (stem +:+ ".off"))
  /\ (forall p, (forall stem, stem ∈ stems -> p <> stem +:+ ".obj") ->
        Bootstrap.tree w' !! p = Bootstrap.tree w !! p).
Proof.
  intros Hglob Hok w'. split; [|split].
  - unfold Bootstrap._off2obj. unfold Bootstrap.bind at 1, Bootstrap.print at 1.
    unfold Bootstrap.bind at 1. cbn [Bootstrap.tree]. fold (off_pattern root).
    rewrite Hglob. rewrite <- (app_nil_r (map _ stems)).
    rewrite (off2obj_loop stems []
               (Bootstrap.Site (Bootstrap.tree w) (Bootstrap.console w ++ ["Convert OFF into OBJ"]) (Bootstrap.nrequests w)) Hok).
    reflexivity.
  - intros stem Hin. unfold w'. cbn [Bootstrap.tree]. split.
    + now apply with_obj_files_written.
    + apply with_obj_files_other. intros s0 _ Heq. symmetry in Heq.
      now apply obj_not_off in Heq.
  - intros p Hp. unfold w'. cbn [Bootstrap.tree]. now apply with_obj_files_other.
Qed.

(** X14. [_off2obj] stops at the first file that does not convert: the
    exception of that file is raised, the files before it have their OBJ
    text written, and the files after it are not visited. *)
Theorem off2obj_stops_at_first_failure (root : string) (stems : list string)
    (bad : string) (rest : list string) (text : string) (e : exn)
    (w : Bootstrap.site) :
  glob (off_pattern root) (Bootstrap.tree w)
    = map (fun stem => stem +:+ ".off") stems ++ bad :: rest ->
  (forall stem, stem ∈ stems ->
     occurs ".off" stem = false /\
     exists text,
       Bootstrap.tree w !! (stem +:+ ".off") = Some text /\
       Off.convert (PyStr.universal_newlines text) = Return (obj stem)) ->
  with_obj_files obj stems (Bootstrap.tree w) !! bad = Some text ->
  Off.convert (PyStr.universal_newlines text) = Raise e ->
  Bootstrap._off2obj glob root w
  = (Raise e,
     Bootstrap.Site (with_obj_files obj stems (Bootstrap.tree w))
                    (Bootstrap.console w ++ ["Convert OFF into OBJ"])
                    (Bootstrap.nrequests w)).
Proof.
  intros Hglob Hok Hbad Hconv.
  unfold Bootstrap._off2obj. unfold Bootstrap.bind at 1, Bootstrap.print at 1.
  unfold Bootstrap.bind at 1. cbn [Bootstrap.tree]. fold (off_pattern root).
  rewrite Hglob.
  rewrite (off2obj_loop stems (bad :: rest)
             (Bootstrap.Site (Bootstrap.tree w) (Bootstrap.console w ++ ["Convert OFF into OBJ"]) (Bootstrap.nrequests w)) Hok).
  cbn [Bootstrap.for_each Bootstrap.tree Bootstrap.console Bootstrap.nrequests].
  unfold Bootstrap.bind at 1. unfold Bootstrap.bind at 1, Bootstrap.read_text at 1.
  cbn [Bootstrap.tree]. rewrite Hbad.
  unfold Bootstrap.bind at 1, Bootstrap.lift at 1. now rewrite Hconv.
Qed.

End Off2Obj.

(** ** Line ends *)

Lemma universal_newlines_line (l rest : string) :
  Py.contains PyStr.CR l = false ->
  PyStr.universal_newlines (l +:+ rest) = l +:+ PyStr.universal_newlines rest.
Proof.
  induction l as [|c l IH]; [reflexivity|]. intros H.
  cbn [Py.contains] in H. apply orb_false_elim in H as [Hc Hl].
  rewrite !append_cons. cbn [PyStr.universal_newlines]. rewrite Hc.
  now rewrite (IH Hl).
Qed.

Lemma universal_newlines_crlf (ls : list string) :
  Forall (fun l => Py.contains PyStr.CR l = false) ls ->
  PyStr.universal_newlines (PyStr.join (String PyStr.CR PyStr.nl) ls)
  = PyStr.join PyStr.nl ls.
Proof.
  induction 1 as [|l ls Hl Hls IH]; [reflexivity|]. destruct ls as [|k ls].
  - cbn [PyStr.join]. rewrite <- (append_nil_r l) at 1.
    rewrite (universal_newlines_line _ _ Hl). cbn. apply append_nil_r.
  - change (PyStr.join (String PyStr.CR PyStr.nl) (l :: k :: ls))
      with (l +:+ String PyStr.CR
                    (String PyStr.LF (PyStr.join (String PyStr.CR PyStr.nl) (k :: ls)))).
    rewrite (universal_newlines_line _ _ Hl).
    change (PyStr.universal_newlines
              (String PyStr.CR
                 (String PyStr.LF (PyStr.join (String PyStr.CR PyStr.nl) (k :: ls)))))
      with (String PyStr.LF
              (PyStr.universal_newlines (PyStr.join (String PyStr.CR PyStr.nl) (k :: ls)))).
    rewrite IH. reflexivity.
Qed.

Lemma pretty_no_char (c : ascii) (l : list nat) :
  PyStr.isdigit c = false ->
  Forall (fun t => Py.contains c t = false) (map pretty l).
Proof.
  intros Hc. apply Forall_fmap, Forall_forall. intros n _. cbn.
  apply digits_no_char; [exact Hc|]. apply pretty_nat_token.
Qed.

(** X15. An OFF file with the line ends [\r\n] is read, in text mode, as
    the same lines with the line end [\n], and so converts to the same OBJ
    text as the file with that line end. *)
Theorem off_crlf_file_converts (path : string) (vertices : list string)
    (faces : list (list nat)) (edges : nat) (trailer : list string)
    (w : Bootstrap.site) :
  Forall (fun l => Py.contains PyStr.LF l = false /\ Py.contains PyStr.CR l = false)
         (vertices ++ trailer) ->
  Bootstrap.tree w !! path
  = Some (PyStr.join (String PyStr.CR PyStr.nl)
            ("OFF" :: off_counts (length vertices) (length faces) edges
               :: vertices ++ map off_face faces ++ trailer)) ->
  Bootstrap.bind (Bootstrap.read_text path)
    (fun text => Bootstrap.lift (Off.convert text)) w
  = (Return (obj_text vertices faces), w).
Proof.
  intros Hlines Hfile. apply Forall_app in Hlines as [Hvs Htr].
  unfold Bootstrap.bind, Bootstrap.read_text, Bootstrap.lift. rewrite Hfile.
  rewrite universal_newlines_crlf.
  - fold (off_text vertices faces edges trailer).
    rewrite convert_well_formed; [reflexivity| |].
    + eapply Forall_impl; [exact Hvs|]. now intros l [H _].
    + eapply Forall_impl; [exact Htr|]. now intros l [H _].
  - constructor; [reflexivity|]. constructor.
    { change (off_counts (length vertices) (length faces) edges)
        with (PyStr.join " " (map pretty [length vertices; length faces; edges])).
      apply contains_join; [reflexivity|]. now apply pretty_no_char. }
    apply Forall_app. split.
    { eapply Forall_impl; [exact Hvs|]. now intros l [_ H]. }
    apply Forall_app. split.
    { apply Forall_fmap, Forall_forall. intros f _. cbv beta. unfold off_face.
      apply contains_join; [reflexivity|].
      now apply (pretty_no_char PyStr.CR (length f :: f)). }
    eapply Forall_impl; [exact Htr|]. now intros l [_ H].
Qed.

(** ** The number of sampled kernels *)

Lemma traverse_return {A B} (f : A -> outcome B) (g : A -> B) (l : list A) :
  (forall x, x ∈ l -> f x = Return (g x)) ->
  PyStr.traverse f l = Return (map g l).
Proof.
  induction l as [|x l IH]; intros H; [reflexivity|].
  cbn [PyStr.traverse map]. rewrite (H x) by left.
  rewrite IH; [reflexivity|]. intros y Hy. apply H. now right.
Qed.

Lemma elem_of_range (a b J : Z) : J ∈ Kernels.range a b <-> (a <= J < b)%Z.
Proof.
  unfold Kernels.range. rewrite list_elem_of_fmap. split.
  - intros (k & -> & Hk). apply elem_of_seq in Hk. lia.
  - intros HJ. exists (Z.to_nat (J - a)). split; [lia|]. apply elem_of_seq. lia.
Qed.

(** X16. For two orders that are not negative, [_sample_sh_sphere] computes
    one kernel for each order [J] from [|order_in - order_out|] to
    [order_in + order_out], in increasing order: [2 * min(order_in,
    order_out) + 1] kernels, when each is computed without an exception. *)
Theorem sample_sh_sphere_orders {K : Type} (K_J : Z -> Z -> Z -> Z -> outcome K)
    (kernel : Z -> K) (n order_in order_out : Z) :
  (0 <= order_in)%Z -> (0 <= order_out)%Z ->
  (forall J, (Z.abs (order_in - order_out) <= J <= order_in + order_out)%Z ->
     K_J n J order_in order_out = Return (kernel J)) ->
  exists sh_spheres,
    Kernels._sample_sh_sphere K_J n order_in order_out = Return sh_spheres
    /\ Z.of_nat (length sh_spheres) = (2 * Z.min order_in order_out + 1)%Z
    /\ forall k, k < length sh_spheres ->
         sh_spheres !! k = Some (kernel (Z.abs (order_in - order_out) + Z.of_nat k)%Z).
Proof.
  intros Hin Hout Hk. unfold Kernels._sample_sh_sphere.
  rewrite (traverse_return _ kernel).
  2: { intros J HJ. apply elem_of_range in HJ. apply Hk. lia. }
  eexists. split; [reflexivity|]. unfold Kernels.range.
  rewrite !length_map, length_seq. split; [lia|].
  intros k Hlt. rewrite !list_lookup_fmap, lookup_seq_lt by exact Hlt. reflexivity.
Qed.
